(** * BugOff AI debugging assistant: the analysis pipeline and its run reports

    The development embeds the parts of the repository that decide how an
    analysis run behaves:

    - [ProjectUpload.startAnalysis] and [ProjectUpload.enhanceSpec]
      (src/components/ProjectUpload.tsx), the UI analysis pipeline;
    - [Dashboard.handleApplyFix] and [Dashboard.handleRejectFix]
      (src/components/Dashboard.tsx) together with the part of
      [CodeDiffViewer] (src/components/CodeDiffViewer.tsx) that decides when
      these handlers can be called;
    - the run summary written by the debugger engine
      (test_fixes/fixes_summary_20250717_093731.json), as data, and a model of
      the classifier, the fix synthesizer and the run summary of the engine,
      whose Python sources are not part of the repository snapshot. *)

From Stdlib Require Import String Ascii DecimalString DecimalNat.
From Stdlib Require Import ZArith NArith QArith List Bool Lia Permutation.
Import ListNotations.

Close Scope Q_scope.

Local Open Scope Z_scope.

(* ================================================================= *)
(** ** JavaScript values used by the components *)

Module JS.

(** A JavaScript string is a sequence of UTF-16 code units. *)
Definition jsstring : Type := list N.

(** A string literal of the source (all literals of the modelled code are
    ASCII). *)
Definition lit (s : string) : jsstring :=
  map N_of_ascii (list_ascii_of_string s).

(** The double quote, for the literals that contain one. *)
Definition dquote : jsstring := [34%N].

(** [a === b] on strings. *)
Fixpoint eqb (a b : jsstring) : bool :=
  match a, b with
  | [], [] => true
  | x :: a', y :: b' => N.eqb x y && eqb a' b'
  | _, _ => false
  end.

(** ECMAScript WhiteSpace and LineTerminator code points: what
    [String.prototype.trim] strips. All of them are single code units. *)
Definition isWhiteSpace (c : N) : bool :=
  match c with
  | 9 | 10 | 11 | 12 | 13 | 32 | 160 => true
  | 5760 => true
  | 8192 | 8193 | 8194 | 8195 | 8196 | 8197
  | 8198 | 8199 | 8200 | 8201 | 8202 => true
  | 8232 | 8233 | 8239 | 8287 | 12288 | 65279 => true
  | _ => false
  end%N.

Fixpoint trimStart (s : jsstring) : jsstring :=
  match s with
  | [] => []
  | c :: s' => if isWhiteSpace c then trimStart s' else s
  end.

Definition trimEnd (s : jsstring) : jsstring :=
  rev (trimStart (rev s)).

(** [s.trim()] *)
Definition trim (s : jsstring) : jsstring := trimEnd (trimStart s).

(** Truthiness of a string: [!s] is true exactly for the empty string. *)
Definition truthy (s : jsstring) : bool :=
  match s with [] => false | _ :: _ => true end.

(** [a || b] on strings. *)
Definition or_else (a b : jsstring) : jsstring :=
  if truthy a then a else b.

(** [String(n)] for an integral Number below 1e21 in absolute value: the
    decimal digits, with a leading minus sign for a negative one. *)
Definition number_toString (n : Z) : jsstring :=
  lit (NilZero.string_of_int (Z.to_int n)).

(** *** Dates

    A [Date] is its time value: milliseconds since the epoch, UTC. *)

Definition msPerDay : Z := 86400000.

(** [w] decimal digits of [n], most significant first, zero padded. *)
Fixpoint digits (w : nat) (n : Z) : jsstring :=
  match w with
  | O => []
  | S w' => digits w' (n / 10) ++ [Z.to_N (48 + n mod 10)]
  end.

(** Year, month and day of the proleptic Gregorian calendar for a day number
    counted from 1970-01-01. *)
Definition civil_from_days (day : Z) : Z * Z * Z :=
  let z := day + 719468 in
  let era := z / 146097 in
  let doe := z - era * 146097 in
  let yoe := (doe - doe / 1460 + doe / 36524 - doe / 146096) / 365 in
  let doy := doe - (365 * yoe + yoe / 4 - yoe / 100) in
  let mp := (5 * doy + 2) / 153 in
  let d := doy - (153 * mp + 2) / 5 + 1 in
  let m := if mp <? 10 then mp + 3 else mp - 9 in
  let y := yoe + era * 400 + (if m <=? 2 then 1 else 0) in
  (y, m, d).

(** [Date.prototype.toISOString]: YYYY-MM-DDTHH:mm:ss.sssZ, with the expanded
    six-digit signed year outside 0..9999. *)
Definition toISOString (t : Z) : jsstring :=
  let '(y, m, d) := civil_from_days (t / msPerDay) in
  let ms := t mod msPerDay in
  let year :=
    if (0 <=? y) && (y <=? 9999) then digits 4 y
    else (if y <? 0 then lit "-" else lit "+") ++ digits 6 (Z.abs y) in
  year ++ lit "-" ++ digits 2 m ++ lit "-" ++ digits 2 d ++ lit "T"
    ++ digits 2 (ms / 3600000) ++ lit ":"
    ++ digits 2 (ms / 60000 mod 60) ++ lit ":"
    ++ digits 2 (ms / 1000 mod 60) ++ lit "."
    ++ digits 3 (ms mod 1000) ++ lit "Z".

End JS.

Import JS.

(* ================================================================= *)
(** ** Effects of an event handler

    A handler of a React component reads the state and the props of the
    render it was created in and acts through state setters, callbacks and
    calls to services. A run of a handler is the sequence of these actions
    together with how it ended: normally, or with an exception. *)

Module Eff.

Section Run.
Context {E X : Type}.

Definition M (A : Type) : Type := list E * (A + X).

Definition ret {A} (a : A) : M A := ([], inl a).

Definition bind {A B} (m : M A) (k : A -> M B) : M B :=
  match m with
  | (t, inl a) => let '(t', r) := k a in (t ++ t', r)
  | (t, inr x) => (t, inr x)
  end.

Definition emit (e : E) : M unit := ([e], inl tt).

Definition throw {A} (x : X) : M A := ([], inr x).

(** [try { m } catch (x) { h x }] *)
Definition try_catch {A} (m : M A) (h : X -> M A) : M A :=
  match m with
  | (t, inl a) => (t, inl a)
  | (t, inr x) => let '(t', r) := h x in (t ++ t', r)
  end.

(** [try { m } finally { f }]: [f] always runs; an exception of [f] replaces
    the outcome of [m]. *)
Definition finally {A} (m : M A) (f : M unit) : M A :=
  match m, f with
  | (t, r), (t', inl _) => (t ++ t', r)
  | (t, _), (t', inr x) => (t ++ t', inr x)
  end.

Definition trace {A} (m : M A) : list E := fst m.

Definition outcome {A} (m : M A) : A + X := snd m.

End Run.

Arguments M : clear implicits.

End Eff.

Declare Scope eff_scope.
Delimit Scope eff_scope with eff.
Notation "x <- m ;; k" := (Eff.bind m (fun x => k))
  (at level 61, m at next level, right associativity) : eff_scope.
Notation "m ;; k" := (Eff.bind m (fun _ => k))
  (at level 61, right associativity) : eff_scope.

(* ================================================================= *)
(** ** Records of the UI *)

(** A bug of an analysis result (ProjectUpload.tsx, [analysisResult.bugs]). *)
Module Bug.
Record t : Type := {
  id : jsstring;
  severity : jsstring;
  title : jsstring;
  description : jsstring;
  file : jsstring;
  line : Z;
  suggestion : jsstring
}.
End Bug.

(** [status: 'pending' | 'applied' | 'rejected'] of [interface Fix]
    (CodeDiffViewer.tsx). *)
Inductive FixStatus : Type := pending | applied | rejected.

Definition FixStatus_eqb (a b : FixStatus) : bool :=
  match a, b with
  | pending, pending | applied, applied | rejected, rejected => true
  | _, _ => false
  end.

(** [interface Fix] (CodeDiffViewer.tsx); the fixes of an analysis result
    have the same fields. *)
Module Fix.
Record t : Type := {
  id : jsstring;
  bugId : jsstring;
  title : jsstring;
  description : jsstring;
  file : jsstring;
  originalCode : jsstring;
  fixedCode : jsstring;
  explanation : jsstring;
  status : FixStatus;
  confidence : Z;
  impact : jsstring
}.

(** [{ ...fix, status: s }] *)
Definition with_status (f : t) (s : FixStatus) : t :=
  {| id := id f; bugId := bugId f; title := title f;
     description := description f; file := file f;
     originalCode := originalCode f; fixedCode := fixedCode f;
     explanation := explanation f; status := s;
     confidence := confidence f; impact := impact f |}.
End Fix.

(** [interface UploadedFile] (ProjectUpload.tsx). *)
Inductive FileType : Type := spec | code | video | logs.

Inductive FileStatus : Type := uploading | uploaded | error.

Definition FileType_eqb (a b : FileType) : bool :=
  match a, b with
  | spec, spec | code, code | video, video | logs, logs => true
  | _, _ => false
  end.

Definition FileStatus_eqb (a b : FileStatus) : bool :=
  match a, b with
  | uploading, uploading | uploaded, uploaded | error, error => true
  | _, _ => false
  end.

Module UploadedFile.
Record t : Type := {
  id : jsstring;
  name : jsstring;
  type : FileType;
  size : Z;
  status : FileStatus;
  url : option jsstring
}.
End UploadedFile.

(** The [files] object of an analysis result. *)
Module Files.
Record t : Type := {
  code : list UploadedFile.t;
  video : list UploadedFile.t;
  logs : list UploadedFile.t
}.
End Files.

(** The object [startAnalysis] hands to [onAnalysisComplete]. *)
Module AnalysisResult.
Record t : Type := {
  id : jsstring;
  timestamp : jsstring;
  originalSpec : jsstring;
  enhancedSpec : jsstring;
  files : Files.t;
  bugs : list Bug.t;
  fixes : list Fix.t
}.

(** [{ ...analysisData, fixes: updatedFixes }] *)
Definition with_fixes (r : t) (fs : list Fix.t) : t :=
  {| id := id r; timestamp := timestamp r; originalSpec := originalSpec r;
     enhancedSpec := enhancedSpec r; files := files r; bugs := bugs r;
     fixes := fs |}.
End AnalysisResult.

(** The argument of [onNotification] / [addNotification]. *)
Inductive NotificationType : Type :=
  success | error_notification | warning | info.

Module Notification.
Record t : Type := {
  type : NotificationType;
  title : jsstring;
  message : option jsstring;
  duration : option Z
}.
End Notification.

(* ================================================================= *)
(** ** ProjectUpload (src/components/ProjectUpload.tsx) *)

Module ProjectUpload.

(** The state of the component as the handler's closure sees it: the values
    of the render in which the handler was created. *)
Record State : Type := {
  originalSpec : jsstring;
  enhancedSpec : jsstring;
  uploadedFiles : list UploadedFile.t;
  isAnalyzing : bool;
  analysisProgress : Z;
  currentStep : jsstring
}.

(** The state setters of the component. *)
Inductive Setter : Type :=
| setIsAnalyzing (b : bool)
| setAnalysisProgress (n : Z)
| setCurrentStep (s : jsstring)
| setEnhancedSpec (s : jsstring).

(** What the handlers do to the world, in order. [sleep ms] stands for
    [await new Promise(resolve => setTimeout(resolve, ms))]. *)
Inductive Effect : Type :=
| set (u : Setter)
| generateText (prompt : jsstring) (maxTokens : Z)
| console_error (label : jsstring)
| sleep (ms : Z)
| onAnalysisComplete (r : AnalysisResult.t)
| onNotification (n : Notification.t)
| setTimeout (callback : list Setter) (ms : Z).

Coercion set : Setter >-> Effect.

Inductive Exn : Type :=
| generateText_rejected
| onAnalysisComplete_threw
| onNotification_threw.

(** What the handler meets outside the component: the answer of the text
    service ([None]: the promise rejects), the two readings of the clock, and
    the props ([false]: the callback throws; [onNotification] is optional). *)
Record World : Type := {
  blink_ai_generateText : jsstring -> Z -> option jsstring;
  Date_now : Z;
  new_Date : Z;
  onAnalysisComplete_returns : AnalysisResult.t -> bool;
  onNotification_prop : option (Notification.t -> bool)
}.

Local Open Scope eff_scope.

Definition M : Type -> Type := Eff.M Effect Exn.

Definition emit (e : Effect) : M unit := Eff.emit e.

(** [onNotification?.(n)] *)
Definition notify (w : World) (n : Notification.t) : M unit :=
  match onNotification_prop w with
  | None => Eff.ret tt
  | Some returns =>
      emit (onNotification n) ;;
      if returns n then Eff.ret tt else Eff.throw onNotification_threw
  end.

(** The prompt of [enhanceSpec], a template literal around the original
    specification. *)
Definition enhance_prompt (originalSpec : jsstring) : jsstring :=
  lit "You are an expert software architect. Take this original specification and enhance it to be more comprehensive, detailed, and technically precise. Add missing requirements, clarify ambiguities, and structure it better for development.

Original Spec:
" ++ originalSpec ++ lit "

Please provide an enhanced specification that includes:
1. Clear functional requirements
2. Technical specifications
3. User interface requirements
4. Performance expectations
5. Error handling requirements
6. Security considerations

Enhanced Specification:".

Definition enhanceSpec (st : State) (w : World) : M unit :=
  if negb (truthy (trim (originalSpec st))) then Eff.ret tt
  else
    emit (setCurrentStep (lit "Enhancing specification...")) ;;
    emit (setAnalysisProgress 20) ;;
    Eff.try_catch
      (emit (generateText (enhance_prompt (originalSpec st)) 2000) ;;
       match blink_ai_generateText w (enhance_prompt (originalSpec st)) 2000 with
       | None => Eff.throw generateText_rejected
       | Some text =>
           emit (setEnhancedSpec text) ;;
           emit (setAnalysisProgress 40)
       end)
      (fun _ => emit (console_error (lit "Spec enhancement failed:"))).

(** The elements of the array literal [bugs] of the result. *)
Definition bug_1 : Bug.t :=
{|
  Bug.id := lit "bug-1";
  Bug.severity := lit "high";
  Bug.title := lit "Authentication Flow Incomplete";
  Bug.description := lit "The login component is missing proper error handling and validation.";
  Bug.file := lit "src/components/Login.tsx";
  Bug.line := 45;
  Bug.suggestion := lit "Add form validation and error state management" |}.

Definition bug_2 : Bug.t :=
{|
  Bug.id := lit "bug-2";
  Bug.severity := lit "medium";
  Bug.title := lit "API Response Not Handled";
  Bug.description := lit "Missing error handling for API responses in user dashboard.";
  Bug.file := lit "src/pages/Dashboard.tsx";
  Bug.line := 23;
  Bug.suggestion := lit "Implement try-catch blocks and loading states" |}.

Definition bug_3 : Bug.t :=
{|
  Bug.id := lit "bug-3";
  Bug.severity := lit "low";
  Bug.title := lit "Accessibility Issues";
  Bug.description := lit "Missing ARIA labels and keyboard navigation support.";
  Bug.file := lit "src/components/Navigation.tsx";
  Bug.line := 12;
  Bug.suggestion := lit "Add proper ARIA attributes and keyboard event handlers" |}.

Definition analysis_bugs : list Bug.t := [bug_1; bug_2; bug_3].

(** The elements of the array literal [fixes] of the result. *)
Definition fix_1 : Fix.t :=
{|
  Fix.id := lit "fix-1";
  Fix.bugId := lit "bug-1";
  Fix.title := lit "Add Authentication Validation";
  Fix.description := lit "Implement comprehensive form validation and error handling for the login component";
  Fix.file := lit "src/components/Login.tsx";
  Fix.originalCode := lit "const handleLogin = async (email, password) => {
  const response = await fetch('/api/login', {
    method: 'POST',
    body: JSON.stringify({ email, password })
  })
  
  if (response.ok) {
    const user = await response.json()
    setUser(user)
  }
}";
  Fix.fixedCode := lit "const [errors, setErrors] = useState({})
const [isLoading, setIsLoading] = useState(false)

const validateForm = (email, password) => {
  const newErrors = {}
  if (!email) newErrors.email = 'Email is required'
  if (!email.includes('@')) newErrors.email = 'Invalid email format'
  if (!password) newErrors.password = 'Password is required'
  if (password.length < 6) newErrors.password = 'Password must be at least 6 characters'
  return newErrors
}

const handleLogin = async (email, password) => {
  const validationErrors = validateForm(email, password)
  if (Object.keys(validationErrors).length > 0) {
    setErrors(validationErrors)
    return
  }
  
  setIsLoading(true)
  setErrors({})
  
  try {
    const response = await fetch('/api/login', {
      method: 'POST',
      headers: { 'Content-Type': 'application/json' },
      body: JSON.stringify({ email, password })
    })
    
    if (response.ok) {
      const user = await response.json()
      setUser(user)
    } else {
      const error = await response.json()
      setErrors({ general: error.message || 'Login failed' })
    }
  } catch (error) {
    setErrors({ general: 'Network error. Please try again.' })
  } finally {
    setIsLoading(false)
  }
}";
  Fix.explanation := lit "Added form validation, loading states, error handling, and proper HTTP headers. This prevents users from submitting invalid data and provides clear feedback.";
  Fix.status := pending;
  Fix.confidence := 95;
  Fix.impact := lit "high" |}.

Definition fix_2 : Fix.t :=
{|
  Fix.id := lit "fix-2";
  Fix.bugId := lit "bug-2";
  Fix.title := lit "Add API Error Handling";
  Fix.description := lit "Implement proper error handling and loading states for API calls in the dashboard";
  Fix.file := lit "src/pages/Dashboard.tsx";
  Fix.originalCode := lit "const fetchUserData = async () => {
  const response = await fetch('/api/user')
  const userData = await response.json()
  setUserData(userData)
}

useEffect(() => {
  fetchUserData()
}, [])";
  Fix.fixedCode := lit "const [loading, setLoading] = useState(true)
const [error, setError] = useState(null)

const fetchUserData = async () => {
  try {
    setLoading(true)
    setError(null)
    
    const response = await fetch('/api/user')
    
    if (!response.ok) {
      throw new Error(`HTTP error! status: ${response.status}`)
    }
    
    const userData = await response.json()
    setUserData(userData)
  } catch (err) {
    setError(err.message || 'Failed to fetch user data')
    console.error('Error fetching user data:', err)
  } finally {
    setLoading(false)
  }
}

const retryFetch = () => {
  fetchUserData()
}

useEffect(() => {
  fetchUserData()
}, [])";
  Fix.explanation := lit "Added comprehensive error handling, loading states, and retry functionality. This prevents crashes and provides better user experience.";
  Fix.status := pending;
  Fix.confidence := 88;
  Fix.impact := lit "medium" |}.

Definition analysis_fixes : list Fix.t := [fix_1; fix_2].

Definition has_type_and_status (ty : FileType) (s : FileStatus)
    (f : UploadedFile.t) : bool :=
  FileType_eqb (UploadedFile.type f) ty
  && FileStatus_eqb (UploadedFile.status f) s.

(** The object literal [analysisResult]. [enhancedSpec] is the value the
    closure captured, also after [enhanceSpec] has run. *)
Definition analysisResult (st : State) (w : World) : AnalysisResult.t :=
  {| AnalysisResult.id := lit "analysis-" ++ number_toString (Date_now w);
     AnalysisResult.timestamp := toISOString (new_Date w);
     AnalysisResult.originalSpec := originalSpec st;
     AnalysisResult.enhancedSpec :=
       or_else (enhancedSpec st) (lit "Spec enhancement in progress...");
     AnalysisResult.files :=
       {| Files.code :=
            filter (has_type_and_status code uploaded) (uploadedFiles st);
          Files.video :=
            filter (has_type_and_status video uploaded) (uploadedFiles st);
          Files.logs :=
            filter (has_type_and_status logs uploaded) (uploadedFiles st) |};
     AnalysisResult.bugs := analysis_bugs;
     AnalysisResult.fixes := analysis_fixes |}.

(** The guard on the first line of [startAnalysis]:
    [!originalSpec.trim() || uploadedFiles.length === 0]. *)
Definition nothing_to_analyze (st : State) : bool :=
  negb (truthy (trim (originalSpec st)))
  || (Z.of_nat (length (uploadedFiles st)) =? 0).

(** The [try] block of [startAnalysis]. *)
Definition try_block (st : State) (w : World) : M unit :=
  (if negb (truthy (enhancedSpec st)) then enhanceSpec st w
   else Eff.ret tt) ;;
  emit (setCurrentStep (lit "Analyzing codebase...")) ;;
  emit (setAnalysisProgress 60) ;;
  emit (setCurrentStep (lit "Generating bug report...")) ;;
  emit (setAnalysisProgress 80) ;;
  emit (sleep 1000) ;;
  emit (setCurrentStep (lit "Identifying patterns...")) ;;
  emit (setAnalysisProgress 85) ;;
  emit (sleep 800) ;;
  emit (setCurrentStep (lit "Generating fixes...")) ;;
  emit (setAnalysisProgress 90) ;;
  emit (sleep 600) ;;
  emit (setCurrentStep (lit "Finalizing report...")) ;;
  emit (setAnalysisProgress 95) ;;
  let r := analysisResult st w in
  emit (setAnalysisProgress 100) ;;
  emit (setCurrentStep (lit "Analysis complete!")) ;;
  emit (onAnalysisComplete r) ;;
  (if onAnalysisComplete_returns w r then Eff.ret tt
   else Eff.throw onAnalysisComplete_threw) ;;
  notify w
    {| Notification.type := success;
       Notification.title := lit "Analysis Complete!";
       Notification.message := Some
         (lit "Found "
          ++ number_toString (Z.of_nat (length (AnalysisResult.bugs r)))
          ++ lit " issues and generated "
          ++ number_toString (Z.of_nat (length (AnalysisResult.fixes r)))
          ++ lit " fixes.");
       Notification.duration := Some 5000 |}.

(** Its [catch] block. *)
Definition catch_block (w : World) (_ : Exn) : M unit :=
  emit (console_error (lit "Analysis failed:")) ;;
  notify w
    {| Notification.type := error_notification;
       Notification.title := lit "Analysis Failed";
       Notification.message := Some
         (lit "There was an error during the analysis. Please try again.");
       Notification.duration := Some 5000 |}.

(** Its [finally] block. *)
Definition finally_block : M unit :=
  emit (setIsAnalyzing false) ;;
  emit (setTimeout [setAnalysisProgress 0; setCurrentStep (lit "")] 2000).

Definition startAnalysis (st : State) (w : World) : M unit :=
  if nothing_to_analyze st then Eff.ret tt
  else
    emit (setIsAnalyzing true) ;;
    emit (setAnalysisProgress 0) ;;
    Eff.finally (Eff.try_catch (try_block st w) (catch_block w))
      finally_block.

(** The analysis results a run hands to [onAnalysisComplete]. *)
Fixpoint produced (t : list Effect) : list AnalysisResult.t :=
  match t with
  | [] => []
  | onAnalysisComplete r :: t' => r :: produced t'
  | _ :: t' => produced t'
  end.

(** Two results that differ at most in what was read from the clock: [id]
    and [timestamp]. *)
Definition same_up_to_clock (r1 r2 : AnalysisResult.t) : Prop :=
  AnalysisResult.originalSpec r1 = AnalysisResult.originalSpec r2
  /\ AnalysisResult.enhancedSpec r1 = AnalysisResult.enhancedSpec r2
  /\ AnalysisResult.files r1 = AnalysisResult.files r2
  /\ AnalysisResult.bugs r1 = AnalysisResult.bugs r2
  /\ AnalysisResult.fixes r1 = AnalysisResult.fixes r2.

(** The notifications a run sends. *)
Fixpoint notified (t : list Effect) : list Notification.t :=
  match t with
  | [] => []
  | onNotification n :: t' => n :: notified t'
  | _ :: t' => notified t'
  end.

(** The state after the setters of a run have taken effect (timers not yet
    fired). *)
Definition apply_setter (st : State) (u : Setter) : State :=
  match u with
  | setIsAnalyzing b =>
      {| originalSpec := originalSpec st; enhancedSpec := enhancedSpec st;
         uploadedFiles := uploadedFiles st; isAnalyzing := b;
         analysisProgress := analysisProgress st;
         currentStep := currentStep st |}
  | setAnalysisProgress n =>
      {| originalSpec := originalSpec st; enhancedSpec := enhancedSpec st;
         uploadedFiles := uploadedFiles st; isAnalyzing := isAnalyzing st;
         analysisProgress := n; currentStep := currentStep st |}
  | setCurrentStep s =>
      {| originalSpec := originalSpec st; enhancedSpec := enhancedSpec st;
         uploadedFiles := uploadedFiles st; isAnalyzing := isAnalyzing st;
         analysisProgress := analysisProgress st; currentStep := s |}
  | setEnhancedSpec s =>
      {| originalSpec := originalSpec st; enhancedSpec := s;
         uploadedFiles := uploadedFiles st; isAnalyzing := isAnalyzing st;
         analysisProgress := analysisProgress st;
         currentStep := currentStep st |}
  end.

Definition apply_effect (st : State) (e : Effect) : State :=
  match e with
  | set u => apply_setter st u
  | _ => st
  end.

Definition apply_effects (st : State) (t : list Effect) : State :=
  fold_left apply_effect t st.

End ProjectUpload.

(* ================================================================= *)
(** ** CodeDiffViewer (src/components/CodeDiffViewer.tsx) *)

Module CodeDiffViewer.

(** The data shown when no fixes are provided. *)
Definition dummyFixes : list Fix.t := [
{|
  Fix.id := lit "fix-1";
  Fix.bugId := lit "bug-1";
  Fix.title := lit "Implement Parameterized Queries";
  Fix.description := lit "Replace string concatenation with parameterized queries to prevent SQL injection";
  Fix.file := lit "src/api/users.js";
  Fix.confidence := 98;
  Fix.impact := lit "critical";
  Fix.status := pending;
  Fix.originalCode := (lit "const query = " ++ dquote ++ lit "SELECT * FROM users WHERE email = '" ++ dquote ++ lit " + email + " ++ dquote ++ lit "' AND password = '" ++ dquote ++ lit " + password + " ++ dquote ++ lit "'" ++ dquote ++ lit ";
const result = await db.query(query);

if (result.length > 0) {
  return { success: true, user: result[0] };
} else {
  return { success: false, message: 'Invalid credentials' };
}");
  Fix.fixedCode := (lit "const query = " ++ dquote ++ lit "SELECT * FROM users WHERE email = ? AND password = ?" ++ dquote ++ lit ";
const hashedPassword = await bcrypt.hash(password, 10);
const result = await db.query(query, [email, hashedPassword]);

if (result.length > 0) {
  return { success: true, user: result[0] };
} else {
  return { success: false, message: 'Invalid credentials' };
}");
  Fix.explanation := lit "Uses parameterized queries to safely handle user input and prevents SQL injection attacks. Also includes password hashing for security." |};
{|
  Fix.id := lit "fix-2";
  Fix.bugId := lit "bug-2";
  Fix.title := lit "Add JWT Validation Middleware";
  Fix.description := lit "Implement comprehensive JWT token validation for protected routes";
  Fix.file := lit "src/middleware/auth.js";
  Fix.confidence := 95;
  Fix.impact := lit "high";
  Fix.status := pending;
  Fix.originalCode := lit "app.get('/api/protected', (req, res) => {
  // No authentication check
  res.json({ data: 'sensitive information' });
});

app.post('/api/user/update', (req, res) => {
  // Direct database update without auth
  const { userId, data } = req.body;
  updateUser(userId, data);
  res.json({ success: true });
});";
  Fix.fixedCode := lit "const jwt = require('jsonwebtoken');

const authenticateToken = (req, res, next) => {
  const authHeader = req.headers['authorization'];
  const token = authHeader && authHeader.split(' ')[1];
  
  if (!token) {
    return res.status(401).json({ error: 'Access token required' });
  }
  
  jwt.verify(token, process.env.JWT_SECRET, (err, user) => {
    if (err) {
      return res.status(403).json({ error: 'Invalid or expired token' });
    }
    req.user = user;
    next();
  });
};

app.get('/api/protected', authenticateToken, (req, res) => {
  res.json({ data: 'sensitive information', user: req.user });
});

app.post('/api/user/update', authenticateToken, (req, res) => {
  const { data } = req.body;
  const userId = req.user.id; // Use authenticated user ID
  updateUser(userId, data);
  res.json({ success: true });
});";
  Fix.explanation := lit "Adds proper JWT validation middleware that checks for valid tokens and handles authentication errors gracefully." |};
{|
  Fix.id := lit "fix-3";
  Fix.bugId := lit "bug-3";
  Fix.title := lit "Add Comprehensive Error Handling";
  Fix.description := lit "Implement error handling for async operations to prevent crashes";
  Fix.file := lit "src/components/Dashboard.jsx";
  Fix.confidence := 92;
  Fix.impact := lit "medium";
  Fix.status := applied;
  Fix.originalCode := lit "const fetchUserData = async () => {
  const response = await fetch('/api/user');
  const userData = await response.json();
  setUserData(userData);
};

const handleSubmit = async (formData) => {
  const response = await fetch('/api/submit', {
    method: 'POST',
    body: JSON.stringify(formData)
  });
  const result = await response.json();
  setResult(result);
};

useEffect(() => {
  fetchUserData();
}, []);";
  Fix.fixedCode := lit "const [loading, setLoading] = useState(true);
const [error, setError] = useState(null);

const fetchUserData = async () => {
  try {
    setLoading(true);
    setError(null);
    
    const response = await fetch('/api/user');
    
    if (!response.ok) {
      throw new Error(`HTTP error! status: ${response.status}`);
    }
    
    const userData = await response.json();
    setUserData(userData);
  } catch (err) {
    setError(err.message || 'Failed to fetch user data');
    console.error('Error fetching user data:', err);
  } finally {
    setLoading(false);
  }
};

const handleSubmit = async (formData) => {
  try {
    setLoading(true);
    setError(null);
    
    const response = await fetch('/api/submit', {
      method: 'POST',
      headers: { 'Content-Type': 'application/json' },
      body: JSON.stringify(formData)
    });
    
    if (!response.ok) {
      throw new Error(`Submission failed: ${response.status}`);
    }
    
    const result = await response.json();
    setResult(result);
  } catch (err) {
    setError(err.message || 'Submission failed');
    console.error('Error submitting form:', err);
  } finally {
    setLoading(false);
  }
};

useEffect(() => {
  fetchUserData();
}, []);";
  Fix.explanation := lit "Adds comprehensive error handling with loading states, proper HTTP status checking, and user feedback for better UX." |}
]%list.

(** [fixes.length > 0 ? fixes : dummyFixes] *)
Definition displayFixes (fixes : list Fix.t) : list Fix.t :=
  if Z.of_nat (length fixes) >? 0 then fixes else dummyFixes.

(** [displayFixes.find(fix => fix.id === selectedFix)]; [selectedFix] is
    [null] until an entry of the list has been clicked. *)
Definition selectedFixData (fixes : list Fix.t)
    (selectedFix : option jsstring) : option Fix.t :=
  match selectedFix with
  | None => None
  | Some sel => find (fun f => eqb (Fix.id f) sel) (displayFixes fixes)
  end.

(** The Apply and Reject buttons are rendered under
    [selectedFixData.status === 'pending']; each calls its handler with
    [selectedFixData.id]. [actions fixes selectedFix] is the id the buttons
    would pass, when they are on the screen. *)
Definition actions (fixes : list Fix.t) (selectedFix : option jsstring)
    : option jsstring :=
  match selectedFixData fixes selectedFix with
  | Some f =>
      if FixStatus_eqb (Fix.status f) pending then Some (Fix.id f) else None
  | None => None
  end.

End CodeDiffViewer.

(* ================================================================= *)
(** ** Dashboard (src/components/Dashboard.tsx) *)

Module Dashboard.

Inductive Effect : Type :=
| console_log (label : jsstring) (fixId : jsstring)
| setAnalysisData (r : AnalysisResult.t)
| addNotification (n : Notification.t)
| console_error (label : jsstring).

Inductive Exn : Type := addNotification_threw.

Definition M : Type -> Type := Eff.M Effect Exn.

Local Open Scope eff_scope.

(** [addNotification] comes from the [useNotifications] hook;
    [returns n = false] stands for a call that throws. *)
Definition notify (returns : Notification.t -> bool) (n : Notification.t)
    : M unit :=
  Eff.emit (addNotification n) ;;
  if returns n then Eff.ret tt else Eff.throw addNotification_threw.

(** The body shared by the two handlers: [analysisData.fixes.map(fix =>
    fix.id === fixId ? { ...fix, status } : fix)]. *)
Definition mark (fixId : jsstring) (s : FixStatus) (fixes : list Fix.t)
    : list Fix.t :=
  map (fun f => if eqb (Fix.id f) fixId then Fix.with_status f s else f) fixes.

Definition handleApplyFix (analysisData : option AnalysisResult.t)
    (returns : Notification.t -> bool) (fixId : jsstring) : M unit :=
  Eff.try_catch
    (Eff.emit (console_log (lit "Applying fix:") fixId) ;;
     match analysisData with
     | Some data =>
         let updatedFixes := mark fixId applied (AnalysisResult.fixes data) in
         Eff.emit (setAnalysisData (AnalysisResult.with_fixes data updatedFixes)) ;;
         notify returns
           {| Notification.type := success;
              Notification.title := lit "Fix Applied Successfully";
              Notification.message :=
                Some (lit "The code fix has been applied to your project.");
              Notification.duration := Some 4000 |}
     | None => Eff.ret tt
     end)
    (fun _ =>
       Eff.emit (console_error (lit "Failed to apply fix:")) ;;
       notify returns
         {| Notification.type := error_notification;
            Notification.title := lit "Failed to Apply Fix";
            Notification.message :=
              Some (lit "There was an error applying the fix. Please try again.");
            Notification.duration := Some 5000 |}).

Definition handleRejectFix (analysisData : option AnalysisResult.t)
    (returns : Notification.t -> bool) (fixId : jsstring) : M unit :=
  Eff.try_catch
    (Eff.emit (console_log (lit "Rejecting fix:") fixId) ;;
     match analysisData with
     | Some data =>
         let updatedFixes := mark fixId rejected (AnalysisResult.fixes data) in
         Eff.emit (setAnalysisData (AnalysisResult.with_fixes data updatedFixes)) ;;
         notify returns
           {| Notification.type := info;
              Notification.title := lit "Fix Rejected";
              Notification.message :=
                Some (lit "The code fix has been marked as rejected.");
              Notification.duration := Some 3000 |}
     | None => Eff.ret tt
     end)
    (fun _ =>
       Eff.emit (console_error (lit "Failed to reject fix:")) ;;
       notify returns
         {| Notification.type := error_notification;
            Notification.title := lit "Failed to Reject Fix";
            Notification.message :=
              Some (lit "There was an error rejecting the fix. Please try again.");
            Notification.duration := Some 5000 |}).

(** The value of [analysisData] after the [setAnalysisData] calls of a run. *)
Fixpoint after (analysisData : option AnalysisResult.t) (t : list Effect)
    : option AnalysisResult.t :=
  match t with
  | [] => analysisData
  | setAnalysisData r :: t' => after (Some r) t'
  | _ :: t' => after analysisData t'
  end.

(** [analysisData?.fixes || []]: the [fixes] prop of [CodeDiffViewer]. *)
Definition fixes_prop (analysisData : option AnalysisResult.t) : list Fix.t :=
  match analysisData with
  | Some data => AnalysisResult.fixes data
  | None => []
  end.

(** *** The dashboard with its viewer

    What is on the screen as far as the fixes go: the [analysisData] of
    [Dashboard] and the [selectedFix] of the [CodeDiffViewer] it renders. *)
Record UI : Type := {
  analysisData : option AnalysisResult.t;
  selectedFix : option jsstring
}.

Definition initial : UI := {| analysisData := None; selectedFix := None |}.

(** What a user can do in the viewer: select an entry of the list, leave the
    tab (the viewer is unmounted and forgets its selection), and, when the
    buttons are shown, apply or reject the selected fix. *)
Inductive viewer_step : UI -> UI -> Prop :=
| click_entry ui f :
    In f (CodeDiffViewer.displayFixes (fixes_prop (analysisData ui))) ->
    viewer_step ui
      {| analysisData := analysisData ui; selectedFix := Some (Fix.id f) |}
| leave_tab ui :
    viewer_step ui {| analysisData := analysisData ui; selectedFix := None |}
| click_apply ui fixId returns :
    CodeDiffViewer.actions (fixes_prop (analysisData ui)) (selectedFix ui)
      = Some fixId ->
    viewer_step ui
      {| analysisData :=
           after (analysisData ui)
             (Eff.trace (handleApplyFix (analysisData ui) returns fixId));
         selectedFix := selectedFix ui |}
| click_reject ui fixId returns :
    CodeDiffViewer.actions (fixes_prop (analysisData ui)) (selectedFix ui)
      = Some fixId ->
    viewer_step ui
      {| analysisData :=
           after (analysisData ui)
             (Eff.trace (handleRejectFix (analysisData ui) returns fixId));
         selectedFix := selectedFix ui |}.

(** A run of [ProjectUpload.startAnalysis] that reaches
    [onAnalysisComplete], which the dashboard binds to [setAnalysisData]. *)
Inductive analysis_step : UI -> UI -> Prop :=
| analysis_complete ui st w r :
    In r (ProjectUpload.produced
            (Eff.trace (ProjectUpload.startAnalysis st w))) ->
    analysis_step ui
      {| analysisData := Some r; selectedFix := selectedFix ui |}.

Inductive viewer_steps : UI -> UI -> Prop :=
| viewer_steps_refl ui : viewer_steps ui ui
| viewer_steps_step ui ui' ui'' :
    viewer_step ui ui' -> viewer_steps ui' ui'' -> viewer_steps ui ui''.

Inductive reachable : UI -> Prop :=
| reachable_initial : reachable initial
| reachable_viewer ui ui' :
    reachable ui -> viewer_step ui ui' -> reachable ui'
| reachable_analysis ui ui' :
    reachable ui -> analysis_step ui ui' -> reachable ui'.

(** How the status of one fix may differ between two states of the same
    analysis result: not at all, or from pending to applied or rejected. *)
Definition status_moves (f f' : Fix.t) : Prop :=
  Fix.id f' = Fix.id f /\
  (Fix.status f' = Fix.status f \/
   (Fix.status f = pending /\
    (Fix.status f' = applied \/ Fix.status f' = rejected))).

End Dashboard.

(* ================================================================= *)
(** ** The debugger engine

    The Python module that classifies bugs, synthesizes fixes and writes the
    run summary (debugger_engine.py, described in README_DebuggerEngine.md) is
    not among the repository's files; its output
    test_fixes/fixes_summary_20250717_093731.json is. The module below is
    written from the specification of the engine (sections 3, 4.4, 4.5 and
    4.6), with the id prefixes read off the recorded run; [Fixture] holds the
    recorded run itself. *)

Module DebuggerEngine.

Local Open Scope string_scope.
Local Open Scope nat_scope.

(** Severity of a bug: critical, major, minor, info. *)
Inductive BugSeverity : Type := CRITICAL | MAJOR | MINOR | INFO.

(** Severity of a finding of the comparison report. *)
Inductive Severity : Type := critical | high | medium | low.

Inductive Category : Type :=
| Missing_Implementation
| Implementation_Gap
| Code_Quality
| Runtime_Error
| Performance
| User_Interface
| Accessibility.

Module Bug.
Record t : Type := {
  id : string;
  title : string;
  description : string;
  severity : BugSeverity;
  file_path : option string;
  line_number : option Z;
  category : Category;
  confidence : Q;
  proposed_fix : option string
}.
End Bug.

Module Fix.
Record t : Type := {
  bug_id : string;
  file_path : string;
  start_line : Z;
  end_line : Z;
  original_code : string;
  fixed_code : string;
  unified_diff : string;
  status : FixStatus
}.
End Fix.

(** *** Inputs of the classifier (section 6 of the specification) *)

Record MissingFeature : Type := {
  missing_name : string;
  missing_description : string
}.

Record Deviation : Type := {
  deviation_feature : string;
  deviation_description : string;
  deviation_severity : Severity
}.

Record LogicalMismatch : Type := {
  mismatch_type : string;
  mismatch_description : string;
  mismatch_severity : Severity
}.

Record ComparisonReport : Type := {
  missing_features : list MissingFeature;
  deviations : list Deviation;
  logical_mismatches : list LogicalMismatch
}.

(** The pattern families of the source text scan. [unhandled_call bare]:
    a network or async call without error handling; [bare] when it has no
    try/catch equivalent at all. *)
Inductive Pattern : Type :=
| todo_marker
| unused_import
| debug_print
| hardcoded_secret
| unhandled_call (bare : bool)
| missing_accessibility.

Record PatternMatch : Type := {
  match_pattern : Pattern;
  match_file : string;
  match_line : Z;
  match_text : string
}.

Record LogEntry : Type := {
  log_timestamp : string;
  log_level : string;
  log_message : string
}.

Record RuntimeLog : Type := {
  errors : list LogEntry;
  slow_queries : list string;
  memory_leaks : list string
}.

Record UIIssue : Type := {
  issue : string;
  issue_severity : BugSeverity;
  issue_timestamp : Q
}.

Record UIFlowTrace : Type := {
  user_actions : list (string * string * Q);
  ui_issues : list UIIssue
}.

(** What section 4.4 leaves open: how a report severity is carried over to
    the scale of bugs, the severity for a log level other than error and
    warning, and the confidence of a TODO/placeholder match. *)
Record Policy : Type := {
  carry_severity : Severity -> BugSeverity;
  other_level_severity : string -> BugSeverity;
  todo_confidence : Q
}.

(** *** Identifiers *)

(** The decimal digits of an ordinal. *)
Definition decimal (n : nat) : string :=
  NilZero.string_of_uint (Nat.to_uint n).

(** An id: the prefix of the bug's kind, an underscore, the ordinal. *)
Definition make_id (prefix : string) (ordinal : nat) : string :=
  prefix ++ "_" ++ decimal ordinal.

(** The prefixes of the recorded run, by category. Accessibility findings
    are filed under Code Quality there (quality_9); no rule produces a bug of
    category Accessibility. *)
Definition prefix_of (c : Category) : string :=
  match c with
  | Missing_Implementation => "missing"
  | Implementation_Gap => "gap"
  | Code_Quality | Accessibility => "quality"
  | Runtime_Error => "log_error"
  | Performance => "perf"
  | User_Interface => "ui"
  end.

(** The text after the last occurrence of [c], when there is one. *)
Fixpoint after_last (c : ascii) (s : string) : option string :=
  match s with
  | EmptyString => None
  | String a s' =>
      match after_last c s' with
      | Some r => Some r
      | None => if Ascii.eqb a c then Some s' else None
      end
  end.

(** The ordinal an id ends in. *)
Definition ordinal_of (id : string) : option nat :=
  match after_last "_" id with
  | Some digits => option_map Nat.of_uint (NilZero.uint_of_string digits)
  | None => None
  end.



(** *** The classifier: a counter threaded through the six rules *)

Definition Counter (A : Type) : Type := nat -> A * nat.

Definition ret {A} (a : A) : Counter A := fun n => (a, n).

Definition bind {A B} (m : Counter A) (k : A -> Counter B) : Counter B :=
  fun n => let '(a, n') := m n in k a n'.

(** The next ordinal of the run. *)
Definition next_ordinal : Counter nat := fun n => (n, S n).

Fixpoint for_each {A B} (f : A -> Counter B) (l : list A)
    : Counter (list B) :=
  match l with
  | [] => ret []
  | a :: l' =>
      bind (f a) (fun b => bind (for_each f l') (fun bs => ret (b :: bs)))
  end.

(** Several sources one after the other over the same counter; their bugs
    in that order. *)
Fixpoint in_order {B} (sources : list (Counter (list B)))
    : Counter (list B) :=
  match sources with
  | [] => ret []
  | m :: sources' =>
      bind m (fun bs =>
      bind (in_order sources') (fun bs' => ret (bs ++ bs')%list))
  end.

(** One bug from one finding: the next ordinal of the run goes into its id. *)
Definition report (c : Category) (make : string -> Bug.t) : Counter Bug.t :=
  bind next_ordinal (fun k => ret (make (make_id (prefix_of c) k))).

Section Classifier.
Variable policy : Policy.

(** Modelled from the spec: rule 1 of section 4.4 (debugger_engine.py is not
    in the repository). A missing feature is a major bug of category Missing
    Implementation, confidence 0.8. *)
Definition bug_of_missing (m : MissingFeature) : Counter Bug.t :=
  report Missing_Implementation (fun id =>
    {| Bug.id := id;
       Bug.title := "Missing Feature: " ++ missing_name m;
       Bug.description := missing_description m;
       Bug.severity := MAJOR;
       Bug.file_path := None;
       Bug.line_number := None;
       Bug.category := Missing_Implementation;
       Bug.confidence := 0.8%Q;
       Bug.proposed_fix := None |}).

(** Modelled from the spec: rule 2 of section 4.4, for a deviation:
    category Implementation Gap, confidence 0.7. *)
Definition bug_of_deviation (d : Deviation) : Counter Bug.t :=
  report Implementation_Gap (fun id =>
    {| Bug.id := id;
       Bug.title := "Implementation Gap: " ++ deviation_feature d;
       Bug.description := deviation_description d;
       Bug.severity := carry_severity policy (deviation_severity d);
       Bug.file_path := None;
       Bug.line_number := None;
       Bug.category := Implementation_Gap;
       Bug.confidence := 0.7%Q;
       Bug.proposed_fix := None |}).

(** Modelled from the spec: rule 2 of section 4.4, for a logical mismatch:
    it carries its own severity, confidence 0.7. *)
Definition bug_of_mismatch (m : LogicalMismatch) : Counter Bug.t :=
  report Implementation_Gap (fun id =>
    {| Bug.id := id;
       Bug.title := "Implementation Gap: " ++ mismatch_type m;
       Bug.description := mismatch_description m;
       Bug.severity := carry_severity policy (mismatch_severity m);
       Bug.file_path := None;
       Bug.line_number := None;
       Bug.category := Implementation_Gap;
       Bug.confidence := 0.7%Q;
       Bug.proposed_fix := None |}).

(** Modelled from the spec: rule 3 of section 4.4, the category and severity
    of each pattern family. *)
Definition pattern_category (p : Pattern) : Category :=
  match p with
  | todo_marker => Missing_Implementation
  | _ => Code_Quality
  end.

Definition pattern_severity (p : Pattern) : BugSeverity :=
  match p with
  | todo_marker => MAJOR
  | hardcoded_secret => CRITICAL
  | unhandled_call true => MAJOR
  | unhandled_call false => MINOR
  | unused_import | debug_print | missing_accessibility => MINOR
  end.

Definition bug_of_match (m : PatternMatch) : Counter Bug.t :=
  report (pattern_category (match_pattern m)) (fun id =>
    {| Bug.id := id;
       Bug.title := "Code Quality: " ++ match_text m;
       Bug.description := match_text m;
       Bug.severity := pattern_severity (match_pattern m);
       Bug.file_path := Some (match_file m);
       Bug.line_number := Some (match_line m);
       Bug.category := pattern_category (match_pattern m);
       Bug.confidence :=
         match match_pattern m with
         | todo_marker => todo_confidence policy
         | _ => 0.6%Q
         end;
       Bug.proposed_fix := None |}).

(** Modelled from the spec: rule 4 of section 4.4. The severity comes from
    the entry's own level: error is critical, warning is major. *)
Definition level_severity (level : string) : BugSeverity :=
  if String.eqb level "error" then CRITICAL
  else if String.eqb level "warning" then MAJOR
  else other_level_severity policy level.

Definition bug_of_log_entry (e : LogEntry) : Counter Bug.t :=
  report Runtime_Error (fun id =>
    {| Bug.id := id;
       Bug.title := "Runtime Error: " ++ log_message e;
       Bug.description := log_message e;
       Bug.severity := level_severity (log_level e);
       Bug.file_path := Some "runtime";
       Bug.line_number := None;
       Bug.category := Runtime_Error;
       Bug.confidence := 0.9%Q;
       Bug.proposed_fix := None |}).

(** Modelled from the spec: rule 5 of section 4.4. *)
Definition bug_of_slow_query (name : string) : Counter Bug.t :=
  report Performance (fun id =>
    {| Bug.id := id;
       Bug.title := "Performance Issue: Slow " ++ name;
       Bug.description := "Function " ++ name ++ " is performing slowly";
       Bug.severity := MAJOR;
       Bug.file_path := Some "performance";
       Bug.line_number := None;
       Bug.category := Performance;
       Bug.confidence := 0.7%Q;
       Bug.proposed_fix := None |}).

(** Modelled from the spec: rule 6 of section 4.4. *)
Definition bug_of_ui_issue (i : UIIssue) : Counter Bug.t :=
  report User_Interface (fun id =>
    {| Bug.id := id;
       Bug.title := "UI Issue: " ++ issue i;
       Bug.description := issue i;
       Bug.severity := issue_severity i;
       Bug.file_path := Some "ui_component";
       Bug.line_number := None;
       Bug.category := User_Interface;
       Bug.confidence := 0.8%Q;
       Bug.proposed_fix := None |}).

(** Modelled from the spec: [classify] of section 4.4 (debugger_engine.py is
    not in the repository). The six rules run in their fixed order over one
    counter; the runtime log and the UI flow trace are optional. *)
Definition classify_all (r : ComparisonReport) (scan : list PatternMatch)
    (runtimeLog : option RuntimeLog) (uiFlowTrace : option UIFlowTrace)
    : Counter (list Bug.t) :=
  in_order
    [ for_each bug_of_missing (missing_features r);
      for_each bug_of_deviation (deviations r);
      for_each bug_of_mismatch (logical_mismatches r);
      for_each bug_of_match scan;
      for_each bug_of_log_entry
        (match runtimeLog with Some l => errors l | None => [] end);
      for_each bug_of_slow_query
        (match runtimeLog with Some l => slow_queries l | None => [] end);
      for_each bug_of_ui_issue
        (match uiFlowTrace with Some u => ui_issues u | None => [] end) ].

Definition classify (r : ComparisonReport) (scan : list PatternMatch)
    (runtimeLog : option RuntimeLog) (uiFlowTrace : option UIFlowTrace)
    : list Bug.t :=
  fst (classify_all r scan runtimeLog uiFlowTrace 0).

End Classifier.

(** *** The fix synthesizer *)

(** What a generator contributes to a fix: where it applies and the two
    snippets. *)
Record Template : Type := {
  template_file : string;
  template_start : Z;
  template_end : Z;
  template_original : string;
  template_replacement : string
}.

Section Synthesizer.

(** The table of template and contextual generators, and the renderer of the
    unified diff. Neither is in the repository. *)
Variable generator : Bug.t -> option Template.
Variable render :
  forall (file : string) (start_line end_line : Z)
         (original replacement : string), string.

(** Modelled from the spec: [synthesize] of section 4.5 (debugger_engine.py is
    not in the repository). No generator for the bug: no fix. Otherwise the
    fix belongs to the bug it was made for and starts out pending. *)
Definition synthesize (bug : Bug.t) : option Fix.t :=
  match generator bug with
  | None => None
  | Some tpl =>
      Some {| Fix.bug_id := Bug.id bug;
              Fix.file_path := template_file tpl;
              Fix.start_line := template_start tpl;
              Fix.end_line := template_end tpl;
              Fix.original_code := template_original tpl;
              Fix.fixed_code := template_replacement tpl;
              Fix.unified_diff :=
                render (template_file tpl) (template_start tpl)
                  (template_end tpl) (template_original tpl)
                  (template_replacement tpl);
              Fix.status := pending |}
  end.

(** One call of [synthesize] per bug of the run, in order. *)
Fixpoint generate_fixes (bugs : list Bug.t) : list Fix.t :=
  match bugs with
  | [] => []
  | bug :: bugs' =>
      match synthesize bug with
      | Some f => f :: generate_fixes bugs'
      | None => generate_fixes bugs'
      end
  end.

End Synthesizer.

(** *** The run summary *)

Definition BugSeverity_eqb (a b : BugSeverity) : bool :=
  match a, b with
  | CRITICAL, CRITICAL | MAJOR, MAJOR | MINOR, MINOR | INFO, INFO => true
  | _, _ => false
  end.

(** The histogram over the four severities, in the order of the recorded
    summary. *)
Definition count_by_severity (severities : list BugSeverity)
    : list (BugSeverity * nat) :=
  map (fun s => (s, length (filter (BugSeverity_eqb s) severities)))
      [CRITICAL; MAJOR; MINOR; INFO].

(** [sum(histogram.values())] *)
Definition sum_values (histogram : list (BugSeverity * nat)) : nat :=
  fold_right (fun kv acc => snd kv + acc) 0 histogram.

Module RunSummary.
Record t : Type := {
  timestamp : string;
  total_bugs : nat;
  total_fixes : nat;
  bugs_by_severity : list (BugSeverity * nat);
  bugs : list Bug.t;
  fixes : list Fix.t
}.
End RunSummary.

(** Modelled from the spec: the aggregation of section 4.6 (debugger_engine.py
    is not in the repository): counts, the histogram by severity, and both
    lists passed through. *)
Definition run_summary (timestamp : string) (bugs : list Bug.t)
    (fixes : list Fix.t) : RunSummary.t :=
  {| RunSummary.timestamp := timestamp;
     RunSummary.total_bugs := length bugs;
     RunSummary.total_fixes := length fixes;
     RunSummary.bugs_by_severity :=
       count_by_severity (map Bug.severity bugs);
     RunSummary.bugs := bugs;
     RunSummary.fixes := fixes |}.

(** Modelled from the spec: the one-directional data flow of section 2, from
    the classifier through the synthesizer to the summary of the run. *)
Definition run (policy : Policy) (generator : Bug.t -> option Template)
    (render : string -> Z -> Z -> string -> string -> string)
    (timestamp : string) (r : ComparisonReport) (scan : list PatternMatch)
    (runtimeLog : option RuntimeLog) (uiFlowTrace : option UIFlowTrace)
    : RunSummary.t :=
  let bugs := classify policy r scan runtimeLog uiFlowTrace in
  run_summary timestamp bugs (generate_fixes generator render bugs).

End DebuggerEngine.

(* ================================================================= *)
(** ** The recorded run (test_fixes/fixes_summary_20250717_093731.json) *)

Module Fixture.

Import DebuggerEngine.
Local Open Scope string_scope.

(** An entry of ["bugs"]. *)
Module BugRow.
Record t : Type := {
  id : string;
  title : string;
  description : string;
  severity : BugSeverity;
  file_path : string;
  line_number : option Z;
  category : Category;
  confidence : Q;
  has_fix : bool
}.
End BugRow.

(** An entry of ["fixes"]. *)
Module FixRow.
Record t : Type := {
  bug_id : string;
  file_path : string;
  start_line : Z;
  end_line : Z;
  lines_changed : Z
}.
End FixRow.

Definition timestamp : string := "20250717_093731".

Definition total_bugs : nat := 17.

Definition total_fixes : nat := 8.

Definition bugs_by_severity : list (BugSeverity * nat) :=
  [(CRITICAL, 3); (MAJOR, 11); (MINOR, 3); (INFO, 0)]%nat.

Definition bugs : list BugRow.t := [
  {| BugRow.id := "quality_6";
     BugRow.title := "Code Quality: Security";
     BugRow.description := "Hardcoded API endpoint";
     BugRow.severity := CRITICAL;
     BugRow.file_path := "src/api/auth.ts";
     BugRow.line_number := Some 23;
     BugRow.category := Code_Quality;
     BugRow.confidence := 0.6%Q;
     BugRow.has_fix := true |};
  {| BugRow.id := "log_error_11";
     BugRow.title := "Runtime Error: API call failed...";
     BugRow.description := "API call failed";
     BugRow.severity := CRITICAL;
     BugRow.file_path := "runtime";
     BugRow.line_number := None;
     BugRow.category := Runtime_Error;
     BugRow.confidence := 0.9%Q;
     BugRow.has_fix := true |};
  {| BugRow.id := "ui_16";
     BugRow.title := "UI Issue: Loading spinner stuck";
     BugRow.description := "UI problem detected at 5.0s";
     BugRow.severity := CRITICAL;
     BugRow.file_path := "ui_component";
     BugRow.line_number := None;
     BugRow.category := User_Interface;
     BugRow.confidence := 0.8%Q;
     BugRow.has_fix := true |};
  {| BugRow.id := "missing_0";
     BugRow.title := "Missing Feature: User Authentication";
     BugRow.description := "Complete login and registration system with JWT tokens";
     BugRow.severity := MAJOR;
     BugRow.file_path := "src/components/Auth.tsx";
     BugRow.line_number := None;
     BugRow.category := Missing_Implementation;
     BugRow.confidence := 0.8%Q;
     BugRow.has_fix := true |};
  {| BugRow.id := "missing_1";
     BugRow.title := "Missing Feature: Real-time Notifications";
     BugRow.description := "WebSocket-based notification system";
     BugRow.severity := MAJOR;
     BugRow.file_path := "src/services/notifications.ts";
     BugRow.line_number := None;
     BugRow.category := Missing_Implementation;
     BugRow.confidence := 0.8%Q;
     BugRow.has_fix := true |};
  {| BugRow.id := "missing_2";
     BugRow.title := "Missing Feature: Data Export Functionality";
     BugRow.description := "Export analysis results to PDF/CSV";
     BugRow.severity := MAJOR;
     BugRow.file_path := "src/utils/export.ts";
     BugRow.line_number := None;
     BugRow.category := Missing_Implementation;
     BugRow.confidence := 0.8%Q;
     BugRow.has_fix := true |};
  {| BugRow.id := "gap_3";
     BugRow.title := "Implementation Gap: Dashboard";
     BugRow.description := "Missing data fetching logic";
     BugRow.severity := MAJOR;
     BugRow.file_path := "src/components/Dashboard.tsx";
     BugRow.line_number := Some 45;
     BugRow.category := Implementation_Gap;
     BugRow.confidence := 0.7%Q;
     BugRow.has_fix := true |};
  {| BugRow.id := "gap_4";
     BugRow.title := "Implementation Gap: BugReports";
     BugRow.description := "Incomplete error handling";
     BugRow.severity := MAJOR;
     BugRow.file_path := "src/components/BugReports.tsx";
     BugRow.line_number := Some 78;
     BugRow.category := Implementation_Gap;
     BugRow.confidence := 0.7%Q;
     BugRow.has_fix := true |};
  {| BugRow.id := "gap_5";
     BugRow.title := "Implementation Gap: CodeDiffViewer";
     BugRow.description := "Performance issue with large diffs";
     BugRow.severity := MAJOR;
     BugRow.file_path := "src/components/CodeDiffViewer.tsx";
     BugRow.line_number := Some 123;
     BugRow.category := Implementation_Gap;
     BugRow.confidence := 0.7%Q;
     BugRow.has_fix := true |};
  {| BugRow.id := "quality_7";
     BugRow.title := "Code Quality: Performance";
     BugRow.description := "Unnecessary re-renders";
     BugRow.severity := MAJOR;
     BugRow.file_path := "src/components/AnalysisResults.tsx";
     BugRow.line_number := Some 67;
     BugRow.category := Code_Quality;
     BugRow.confidence := 0.6%Q;
     BugRow.has_fix := true |};
  {| BugRow.id := "log_error_12";
     BugRow.title := "Runtime Error: Deprecated function used...";
     BugRow.description := "Deprecated function used";
     BugRow.severity := MAJOR;
     BugRow.file_path := "runtime";
     BugRow.line_number := None;
     BugRow.category := Runtime_Error;
     BugRow.confidence := 0.9%Q;
     BugRow.has_fix := true |};
  {| BugRow.id := "perf_13";
     BugRow.title := "Performance Issue: Slow getUserData";
     BugRow.description := "Function getUserData is performing slowly";
     BugRow.severity := MAJOR;
     BugRow.file_path := "performance";
     BugRow.line_number := None;
     BugRow.category := Performance;
     BugRow.confidence := 0.7%Q;
     BugRow.has_fix := true |};
  {| BugRow.id := "perf_14";
     BugRow.title := "Performance Issue: Slow loadDashboard";
     BugRow.description := "Function loadDashboard is performing slowly";
     BugRow.severity := MAJOR;
     BugRow.file_path := "performance";
     BugRow.line_number := None;
     BugRow.category := Performance;
     BugRow.confidence := 0.7%Q;
     BugRow.has_fix := true |};
  {| BugRow.id := "ui_15";
     BugRow.title := "UI Issue: Button not responding";
     BugRow.description := "UI problem detected at 3.1s";
     BugRow.severity := MAJOR;
     BugRow.file_path := "ui_component";
     BugRow.line_number := None;
     BugRow.category := User_Interface;
     BugRow.confidence := 0.8%Q;
     BugRow.has_fix := true |};
  {| BugRow.id := "quality_8";
     BugRow.title := "Code Quality: Code Quality";
     BugRow.description := "Unused import";
     BugRow.severity := MINOR;
     BugRow.file_path := "src/utils/helpers.ts";
     BugRow.line_number := Some 34;
     BugRow.category := Code_Quality;
     BugRow.confidence := 0.6%Q;
     BugRow.has_fix := true |};
  {| BugRow.id := "quality_9";
     BugRow.title := "Code Quality: Accessibility";
     BugRow.description := "Missing accessibility attributes";
     BugRow.severity := MINOR;
     BugRow.file_path := "src/components/ProjectUpload.tsx";
     BugRow.line_number := Some 89;
     BugRow.category := Code_Quality;
     BugRow.confidence := 0.6%Q;
     BugRow.has_fix := true |};
  {| BugRow.id := "quality_10";
     BugRow.title := "Code Quality: Error Handling";
     BugRow.description := "Unhandled promise rejection";
     BugRow.severity := MINOR;
     BugRow.file_path := "src/services/api.ts";
     BugRow.line_number := Some 156;
     BugRow.category := Code_Quality;
     BugRow.confidence := 0.6%Q;
     BugRow.has_fix := true |}
]%list.

Definition fixes : list FixRow.t := [
  {| FixRow.bug_id := "quality_6";
     FixRow.file_path := "src/api/auth.ts";
     FixRow.start_line := 23;
     FixRow.end_line := 24;
     FixRow.lines_changed := 1 |};
  {| FixRow.bug_id := "gap_3";
     FixRow.file_path := "src/components/Dashboard.tsx";
     FixRow.start_line := 45;
     FixRow.end_line := 47;
     FixRow.lines_changed := 6 |};
  {| FixRow.bug_id := "gap_4";
     FixRow.file_path := "src/components/BugReports.tsx";
     FixRow.start_line := 78;
     FixRow.end_line := 79;
     FixRow.lines_changed := 9 |};
  {| FixRow.bug_id := "gap_5";
     FixRow.file_path := "src/components/CodeDiffViewer.tsx";
     FixRow.start_line := 123;
     FixRow.end_line := 124;
     FixRow.lines_changed := 14 |};
  {| FixRow.bug_id := "quality_7";
     FixRow.file_path := "src/components/AnalysisResults.tsx";
     FixRow.start_line := 67;
     FixRow.end_line := 68;
     FixRow.lines_changed := 1 |};
  {| FixRow.bug_id := "quality_8";
     FixRow.file_path := "src/utils/helpers.ts";
     FixRow.start_line := 34;
     FixRow.end_line := 35;
     FixRow.lines_changed := 1 |};
  {| FixRow.bug_id := "quality_9";
     FixRow.file_path := "src/components/ProjectUpload.tsx";
     FixRow.start_line := 89;
     FixRow.end_line := 90;
     FixRow.lines_changed := 1 |};
  {| FixRow.bug_id := "quality_10";
     FixRow.file_path := "src/services/api.ts";
     FixRow.start_line := 156;
     FixRow.end_line := 157;
     FixRow.lines_changed := 1 |}
]%list.

End Fixture.

(* ================================================================= *)
(** ** Sample runs *)

Module Sample.

Import ProjectUpload.

(** A component state with a specification and one uploaded source file. *)
Definition state : State :=
  {| originalSpec := lit " build a todo app ";
     enhancedSpec := [];
     uploadedFiles :=
       [ {| UploadedFile.id := lit "code-1752744260000-0";
            UploadedFile.name := lit "App.tsx";
            UploadedFile.type := code;
            UploadedFile.size := 2048;
            UploadedFile.status := uploaded;
            UploadedFile.url := Some (lit "https://storage/App.tsx") |} ];
     isAnalyzing := false;
     analysisProgress := 0;
     currentStep := [] |}.

(** The same state with a specification of blanks only. *)
Definition blank_state : State :=
  {| originalSpec := lit "  ";
     enhancedSpec := [];
     uploadedFiles := uploadedFiles state;
     isAnalyzing := false;
     analysisProgress := 0;
     currentStep := [] |}.

(** A world in which every call succeeds, at 2025-07-17T09:24:28.305Z. *)
Definition world : World :=
  {| blink_ai_generateText := fun _ _ => Some (lit "An enhanced specification");
     Date_now := 1752744268305;
     new_Date := 1752744268305;
     onAnalysisComplete_returns := fun _ => true;
     onNotification_prop := Some (fun _ => true) |}.

(** The same world one minute later. *)
Definition world_later : World :=
  {| blink_ai_generateText := blink_ai_generateText world;
     Date_now := 1752744328305;
     new_Date := 1752744328305;
     onAnalysisComplete_returns := onAnalysisComplete_returns world;
     onNotification_prop := onNotification_prop world |}.

(** The dashboard after the sample run. *)
Definition after_analysis : Dashboard.UI :=
  {| Dashboard.analysisData := Some (analysisResult state world);
     Dashboard.selectedFix := None |}.

(** ... with the first fix selected. *)
Definition first_selected : Dashboard.UI :=
  {| Dashboard.analysisData := Some (analysisResult state world);
     Dashboard.selectedFix := Some (lit "fix-1") |}.

(** ... and then applied. *)
Definition first_applied : Dashboard.UI :=
  {| Dashboard.analysisData :=
       Dashboard.after (Dashboard.analysisData first_selected)
         (Eff.trace
            (Dashboard.handleApplyFix (Dashboard.analysisData first_selected)
               (fun _ => true) (lit "fix-1")));
     Dashboard.selectedFix := Some (lit "fix-1") |}.

(** The other course: the first fix rejected, and the tab of the viewer
    left. *)
Definition rejected_then_left : Dashboard.UI :=
  {| Dashboard.analysisData :=
       Dashboard.after (Dashboard.analysisData first_selected)
         (Eff.trace
            (Dashboard.handleRejectFix (Dashboard.analysisData first_selected)
               (fun _ => true) (lit "fix-1")));
     Dashboard.selectedFix := None |}.

(** The dashboard after the analysis has been run again, a minute later. *)
Definition analysed_again : Dashboard.UI :=
  {| Dashboard.analysisData := Some (analysisResult state world_later);
     Dashboard.selectedFix := None |}.

(** ... with the first fix selected. *)
Definition selected_again : Dashboard.UI :=
  {| Dashboard.analysisData := Some (analysisResult state world_later);
     Dashboard.selectedFix := Some (lit "fix-1") |}.

(** ... and applied. *)
Definition applied_after_all : Dashboard.UI :=
  {| Dashboard.analysisData :=
       Dashboard.after (Dashboard.analysisData selected_again)
         (Eff.trace
            (Dashboard.handleApplyFix (Dashboard.analysisData selected_again)
               (fun _ => true) (lit "fix-1")));
     Dashboard.selectedFix := Some (lit "fix-1") |}.

End Sample.

(* ================================================================= *)
(** ** ProjectUpload: what a run shows, and the file list
    (src/components/ProjectUpload.tsx) *)

Module ProjectUploadTrace.

Import ProjectUpload.

(** The values a run passes to [setAnalysisProgress], in order. *)
Fixpoint progress_values (t : list Effect) : list Z :=
  match t with
  | [] => []
  | set (setAnalysisProgress n) :: t' => n :: progress_values t'
  | _ :: t' => progress_values t'
  end.

(** The calls of [blink.ai.generateText] of a run: prompt and [maxTokens]. *)
Fixpoint service_calls (t : list Effect) : list (jsstring * Z) :=
  match t with
  | [] => []
  | generateText prompt maxTokens :: t' =>
      (prompt, maxTokens) :: service_calls t'
  | _ :: t' => service_calls t'
  end.

(** The texts a run passes to [setEnhancedSpec]. *)
Fixpoint enhanced_texts (t : list Effect) : list jsstring :=
  match t with
  | [] => []
  | set (setEnhancedSpec s) :: t' => s :: enhanced_texts t'
  | _ :: t' => enhanced_texts t'
  end.

(** What a run writes with [console.error]: the label of each call. *)
Fixpoint console_errors (t : list Effect) : list jsstring :=
  match t with
  | [] => []
  | console_error label :: t' => label :: console_errors t'
  | _ :: t' => console_errors t'
  end.

End ProjectUploadTrace.

Module FileUpload.

(** A [File] of the browser's [FileList], as far as the handler reads it. *)
Record File : Type := {
  name : jsstring;
  size : Z
}.

(** [setUploadedFiles] is always called with an updater, [prev => ...]. *)
Inductive Effect : Type :=
| setUploadedFiles (update : list UploadedFile.t -> list UploadedFile.t)
| storage_upload (file : File) (path : jsstring)
| console_error (label : jsstring)
| onNotification (n : Notification.t).

Inductive Exn : Type :=
| upload_rejected
| onNotification_threw.

(** The clock as read in each round of the loop, the storage service
    ([None]: the upload fails) and the optional [onNotification] prop
    ([false]: the callback throws). *)
Record World : Type := {
  Date_now : nat -> Z;
  blink_storage_upload : File -> jsstring -> option jsstring;
  onNotification_prop : option (Notification.t -> bool)
}.

Local Open Scope eff_scope.

Definition M : Type -> Type := Eff.M Effect Exn.

Definition emit (e : Effect) : M unit := Eff.emit e.

(** [onNotification?.(n)] *)
Definition notify (w : World) (n : Notification.t) : M unit :=
  match onNotification_prop w with
  | None => Eff.ret tt
  | Some returns =>
      emit (onNotification n) ;;
      if returns n then Eff.ret tt else Eff.throw onNotification_threw
  end.

(** [`${type}`] for [UploadedFile['type']]. *)
Definition type_name (ty : FileType) : jsstring :=
  match ty with
  | spec => lit "spec"
  | code => lit "code"
  | video => lit "video"
  | logs => lit "logs"
  end.

(** [`${type}-${Date.now()}-${i}`] *)
Definition fileId (ty : FileType) (now : Z) (i : nat) : jsstring :=
  type_name ty ++ lit "-" ++ number_toString now ++ lit "-"
    ++ number_toString (Z.of_nat i).

(** [prev => [...prev, newFile]] *)
Definition append_file (newFile : UploadedFile.t)
    (prev : list UploadedFile.t) : list UploadedFile.t :=
  prev ++ [newFile].

(** [prev => prev.map(f => f.id === fileId
       ? { ...f, status: 'uploaded', url: publicUrl } : f)] *)
Definition mark_uploaded (fileId publicUrl : jsstring)
    (prev : list UploadedFile.t) : list UploadedFile.t :=
  map (fun f =>
         if eqb (UploadedFile.id f) fileId
         then {| UploadedFile.id := UploadedFile.id f;
                 UploadedFile.name := UploadedFile.name f;
                 UploadedFile.type := UploadedFile.type f;
                 UploadedFile.size := UploadedFile.size f;
                 UploadedFile.status := uploaded;
                 UploadedFile.url := Some publicUrl |}
         else f) prev.

(** [prev => prev.map(f => f.id === fileId
       ? { ...f, status: 'error' } : f)] *)
Definition mark_error (fileId : jsstring)
    (prev : list UploadedFile.t) : list UploadedFile.t :=
  map (fun f =>
         if eqb (UploadedFile.id f) fileId
         then {| UploadedFile.id := UploadedFile.id f;
                 UploadedFile.name := UploadedFile.name f;
                 UploadedFile.type := UploadedFile.type f;
                 UploadedFile.size := UploadedFile.size f;
                 UploadedFile.status := error;
                 UploadedFile.url := UploadedFile.url f |}
         else f) prev.

(** One round of the loop of [handleFileUpload], for [files[i]]. *)
Definition upload_one (w : World) (ty : FileType) (i : nat) (file : File)
    : M unit :=
  let fileId := fileId ty (Date_now w i) i in
  let newFile :=
    {| UploadedFile.id := fileId;
       UploadedFile.name := name file;
       UploadedFile.type := ty;
       UploadedFile.size := size file;
       UploadedFile.status := uploading;
       UploadedFile.url := None |} in
  emit (setUploadedFiles (append_file newFile)) ;;
  Eff.try_catch
    (let path := lit "debug-assistant/" ++ type_name ty ++ lit "/"
                   ++ name file in
     emit (storage_upload file path) ;;
     match blink_storage_upload w file path with
     | None => Eff.throw upload_rejected
     | Some publicUrl =>
         emit (setUploadedFiles (mark_uploaded fileId publicUrl)) ;;
         notify w
           {| Notification.type := success;
              Notification.title := lit "File Uploaded";
              Notification.message :=
                Some (name file ++ lit " has been uploaded successfully.");
              Notification.duration := Some 3000 |}
     end)
    (fun _ =>
       emit (console_error (lit "Upload failed:")) ;;
       emit (setUploadedFiles (mark_error fileId)) ;;
       notify w
         {| Notification.type := error_notification;
            Notification.title := lit "Upload Failed";
            Notification.message :=
              Some (lit "Failed to upload " ++ name file
                    ++ lit ". Please try again.");
            Notification.duration := Some 5000 |}).

(** [for (let i = ...; i < files.length; i++)], from round [i] on. *)
Fixpoint upload_from (w : World) (ty : FileType) (i : nat)
    (files : list File) : M unit :=
  match files with
  | [] => Eff.ret tt
  | file :: files' =>
      upload_one w ty i file ;; upload_from w ty (S i) files'
  end.

Definition handleFileUpload (w : World) (files : list File) (ty : FileType)
    : M unit :=
  upload_from w ty 0 files.

(** [uploadedFiles] after the updaters of a run have been applied, in
    order. *)
Definition uploadedFiles_after (prev : list UploadedFile.t)
    (t : list Effect) : list UploadedFile.t :=
  fold_left (fun files e =>
               match e with
               | setUploadedFiles update => update files
               | _ => files
               end) t prev.

(** The notifications of a run. *)
Fixpoint notified (t : list Effect) : list Notification.t :=
  match t with
  | [] => []
  | onNotification n :: t' => n :: notified t'
  | _ :: t' => notified t'
  end.

(** [removeFile]: [setUploadedFiles(prev => prev.filter(f => f.id !==
    fileId))], as the updater it passes. *)
Definition removeFile (fileId : jsstring) (prev : list UploadedFile.t)
    : list UploadedFile.t :=
  filter (fun f => negb (eqb (UploadedFile.id f) fileId)) prev.

(** The entry of [files[i]] once its upload has settled: uploaded with the
    public URL, or in error. *)
Definition settled (w : World) (ty : FileType) (i : nat) (file : File)
    : UploadedFile.t :=
  let path := lit "debug-assistant/" ++ type_name ty ++ lit "/"
                ++ name file in
  {| UploadedFile.id := fileId ty (Date_now w i) i;
     UploadedFile.name := name file;
     UploadedFile.type := ty;
     UploadedFile.size := size file;
     UploadedFile.status :=
       match blink_storage_upload w file path with
       | Some _ => uploaded
       | None => error
       end;
     UploadedFile.url := blink_storage_upload w file path |}.

Fixpoint settled_from (w : World) (ty : FileType) (i : nat)
    (files : list File) : list UploadedFile.t :=
  match files with
  | [] => []
  | file :: files' => settled w ty i file :: settled_from w ty (S i) files'
  end.

(** What identifies an entry of the list: all but its status and URL. *)
Definition key (f : UploadedFile.t) : jsstring * jsstring * FileType * Z :=
  (UploadedFile.id f, UploadedFile.name f, UploadedFile.type f,
   UploadedFile.size f).

(** Every notification is delivered: the prop is absent or never throws. *)
Definition delivers (w : World) : Prop :=
  match onNotification_prop w with
  | None => True
  | Some returns => forall n, returns n = true
  end.

End FileUpload.

(* ================================================================= *)
(** ** CodeDiffViewer: the counters above the list
    (src/components/CodeDiffViewer.tsx, [stats]) *)

Module CodeDiffViewerStats.

(** [displayFixes.filter(f => f.status === s).length] *)
Definition with_status (s : FixStatus) (displayFixes : list Fix.t) : Z :=
  Z.of_nat
    (length (filter (fun f => FixStatus_eqb (Fix.status f) s) displayFixes)).

(** The counters of [stats]. Its fifth field, [avgConfidence], is a rounded
    floating-point quotient and is left out. *)
Record Stats : Type := {
  total : Z;
  pending_count : Z;
  applied_count : Z;
  rejected_count : Z
}.

Definition stats (fixes : list Fix.t) : Stats :=
  let displayFixes := CodeDiffViewer.displayFixes fixes in
  {| total := Z.of_nat (length displayFixes);
     pending_count := with_status pending displayFixes;
     applied_count := with_status applied displayFixes;
     rejected_count := with_status rejected displayFixes |}.

End CodeDiffViewerStats.

(* ================================================================= *)
(** ** Dashboard: the welcome screen (src/components/Dashboard.tsx) *)

Module Welcome.

(** [localStorage]: the value stored under a key, if any. *)
Definition Storage : Type := jsstring -> option jsstring.

Definition getItem (storage : Storage) (key : jsstring) : option jsstring :=
  storage key.

Definition setItem (storage : Storage) (key value : jsstring) : Storage :=
  fun k => if eqb k key then Some value else storage k.

Definition welcome_seen : jsstring := lit "ai-debug-welcome-seen".

(** The initial value of [showWelcome]:
    [!localStorage.getItem('ai-debug-welcome-seen')]. A missing key reads as
    [null]. *)
Definition showWelcome_initial (storage : Storage) : bool :=
  match getItem storage welcome_seen with
  | Some value => negb (truthy value)
  | None => true
  end.

Inductive Effect : Type :=
| localStorage_setItem (key value : jsstring)
| setShowWelcome (b : bool)
| addNotification (n : Notification.t).

Inductive Exn : Type := addNotification_threw.

Definition M : Type -> Type := Eff.M Effect Exn.

Local Open Scope eff_scope.

Definition handleWelcomeComplete (returns : Notification.t -> bool)
    : M unit :=
  Eff.emit (localStorage_setItem welcome_seen (lit "true")) ;;
  Eff.emit (setShowWelcome false) ;;
  Eff.emit
    (addNotification
       {| Notification.type := success;
          Notification.title := lit "Welcome to BugOff AI!";
          Notification.message :=
            Some (lit "Ready to start analyzing your projects.");
          Notification.duration := Some 4000 |}) ;;
  if returns
       {| Notification.type := success;
          Notification.title := lit "Welcome to BugOff AI!";
          Notification.message :=
            Some (lit "Ready to start analyzing your projects.");
          Notification.duration := Some 4000 |}
  then Eff.ret tt else Eff.throw addNotification_threw.

Definition handleSkipWelcome : M unit :=
  Eff.emit (localStorage_setItem welcome_seen (lit "true")) ;;
  Eff.emit (setShowWelcome false).

(** The storage after the writes of a run. *)
Fixpoint storage_after (storage : Storage) (t : list Effect) : Storage :=
  match t with
  | [] => storage
  | localStorage_setItem key value :: t' =>
      storage_after (setItem storage key value) t'
  | _ :: t' => storage_after storage t'
  end.

(** [showWelcome] after the setters of a run. *)
Fixpoint showWelcome_after (showWelcome : bool) (t : list Effect) : bool :=
  match t with
  | [] => showWelcome
  | setShowWelcome b :: t' => showWelcome_after b t'
  | _ :: t' => showWelcome_after showWelcome t'
  end.

End Welcome.

(* ================================================================= *)
(** ** BugReports (src/components/BugReports.tsx) *)

Module BugReports.

Inductive Severity : Type := high | medium | low.

Inductive Status : Type := open | in_progress | resolved.

(** [interface BugReport] *)
Record BugReport : Type := {
  id : jsstring;
  title : jsstring;
  severity : Severity;
  status : Status;
  description : jsstring;
  file : jsstring;
  line : Z;
  createdAt : jsstring;
  projectName : jsstring;
  suggestion : jsstring
}.

(** The string a severity is: ['high' | 'medium' | 'low']. *)
Definition severity_name (s : Severity) : jsstring :=
  match s with
  | high => lit "high"
  | medium => lit "medium"
  | low => lit "low"
  end.

(** ['open' | 'in-progress' | 'resolved'] *)
Definition status_name (s : Status) : jsstring :=
  match s with
  | open => lit "open"
  | in_progress => lit "in-progress"
  | resolved => lit "resolved"
  end.

(** [s.startsWith(t)] *)
Fixpoint startsWith (s t : jsstring) : bool :=
  match t, s with
  | [], _ => true
  | _ :: _, [] => false
  | y :: t', x :: s' => N.eqb x y && startsWith s' t'
  end.

(** [s.includes(t)]: [t] occurs in [s] at some position. *)
Fixpoint includes (s t : jsstring) : bool :=
  startsWith s t
  || match s with
     | [] => false
     | _ :: s' => includes s' t
     end.

(** [cells.join(sep)] *)
Fixpoint join (sep : jsstring) (cells : list jsstring) : jsstring :=
  match cells with
  | [] => []
  | [cell] => cell
  | cell :: cells' => cell ++ sep ++ join sep cells'
  end.

Section Locale.

(** [String.prototype.toLowerCase], and
    [new Date(createdAt).toLocaleDateString()] in the locale of the
    browser. *)
Variable toLowerCase : jsstring -> jsstring.
Variable toLocaleDateString : jsstring -> jsstring.

(** The predicate of the search filter. *)
Definition matches_search (searchTerm : jsstring) (report : BugReport)
    : bool :=
  includes (toLowerCase (title report)) (toLowerCase searchTerm)
  || includes (toLowerCase (description report)) (toLowerCase searchTerm)
  || includes (toLowerCase (file report)) (toLowerCase searchTerm)
  || includes (toLowerCase (projectName report)) (toLowerCase searchTerm).

(** [filterReports]: the list it passes to [setFilteredReports]. *)
Definition filterReports (reports : list BugReport)
    (searchTerm severityFilter statusFilter : jsstring) : list BugReport :=
  let filtered := reports in
  let filtered :=
    if truthy searchTerm then filter (matches_search searchTerm) filtered
    else filtered in
  let filtered :=
    if negb (eqb severityFilter (lit "all"))
    then filter (fun report =>
                   eqb (severity_name (severity report)) severityFilter)
           filtered
    else filtered in
  let filtered :=
    if negb (eqb statusFilter (lit "all"))
    then filter (fun report =>
                   eqb (status_name (status report)) statusFilter)
           filtered
    else filtered in
  filtered.

(** The header row of the export. *)
Definition csv_header : list jsstring :=
  [lit "ID"; lit "Title"; lit "Severity"; lit "Status"; lit "File";
   lit "Line"; lit "Project"; lit "Created"].

(** The row of a report. *)
Definition csv_row (report : BugReport) : list jsstring :=
  [id report; title report; severity_name (severity report);
   status_name (status report); file report; number_toString (line report);
   projectName report; toLocaleDateString (createdAt report)].

(** [csvContent] of [exportReports]: rows joined by commas, lines by line
    feeds. *)
Definition csvContent (filteredReports : list BugReport) : jsstring :=
  join [10%N]
    (map (join (lit ","))
       (csv_header :: map csv_row filteredReports)).

End Locale.

End BugReports.

(* ================================================================= *)
(** ** LoadingScreen (src/components/LoadingScreen.tsx) *)

Module LoadingScreen.

Definition messages : list jsstring :=
  [lit "Initializing AI Debug Assistant...";
   lit "Loading analysis engines...";
   lit "Preparing code intelligence...";
   lit "Almost ready..."].

(** One firing of the interval: [index = (index + 1) % messages.length]. The
    operands are never negative, so [%] is the remainder of the division. *)
Definition tick (index : Z) : Z :=
  (index + 1) mod Z.of_nat (length messages).

(** [index] after [n] firings, from [let index = 0]. *)
Fixpoint index_after (n : nat) : Z :=
  match n with
  | O => 0
  | S n' => tick (index_after n')
  end.

(** [messages[index]]: [None] stands for [undefined]. *)
Definition message_at (index : Z) : option jsstring :=
  if index <? 0 then None else nth_error messages (Z.to_nat index).

(** [loadingText] after [n] firings: the initial state, then what
    [setLoadingText(messages[index])] was last called with. *)
Definition loadingText_after (n : nat) : option jsstring :=
  match n with
  | O => Some (lit "Initializing AI Debug Assistant...")
  | S _ => message_at (index_after n)
  end.

End LoadingScreen.

(* ================================================================= *)
(** ** More sample data *)

Module MoreSamples.

(** A state whose only upload has failed. *)
Definition failed_upload_state : ProjectUpload.State :=
  {| ProjectUpload.originalSpec := lit "build a todo app";
     ProjectUpload.enhancedSpec := lit "A todo app with lists";
     ProjectUpload.uploadedFiles :=
       [ {| UploadedFile.id := lit "code-1752744260000-0";
            UploadedFile.name := lit "App.tsx";
            UploadedFile.type := code;
            UploadedFile.size := 2048;
            UploadedFile.status := error;
            UploadedFile.url := None |} ];
     ProjectUpload.isAnalyzing := false;
     ProjectUpload.analysisProgress := 0;
     ProjectUpload.currentStep := [] |}.

(** A world whose completion callback throws. *)
Definition throwing_world : ProjectUpload.World :=
  {| ProjectUpload.blink_ai_generateText := fun _ _ => None;
     ProjectUpload.Date_now := 1752744268305;
     ProjectUpload.new_Date := 1752744268305;
     ProjectUpload.onAnalysisComplete_returns := fun _ => false;
     ProjectUpload.onNotification_prop := Some (fun _ => true) |}.

(** Two files to upload; the storage service refuses the second. *)
Definition files : list FileUpload.File :=
  [ {| FileUpload.name := lit "App.tsx"; FileUpload.size := 2048 |};
    {| FileUpload.name := lit "big.mp4"; FileUpload.size := 900000000 |} ].

Definition upload_world : FileUpload.World :=
  {| FileUpload.Date_now := fun i => 1752744260000 + Z.of_nat i;
     FileUpload.blink_storage_upload :=
       fun file path =>
         if FileUpload.size file <? 100000000
         then Some (lit "https://storage/" ++ path)
         else None;
     FileUpload.onNotification_prop := Some (fun _ => true) |}.

(** Two bug reports. *)
Definition reports : list BugReports.BugReport :=
  [ {| BugReports.id := lit "bug-1";
       BugReports.title := lit "Authentication Flow Incomplete";
       BugReports.severity := BugReports.high;
       BugReports.status := BugReports.open;
       BugReports.description := lit "Users can submit empty forms, and get unclear errors.";
       BugReports.file := lit "src/components/Login.tsx";
       BugReports.line := 45;
       BugReports.createdAt := lit "2025-07-15T09:24:28.305Z";
       BugReports.projectName := lit "E-commerce Dashboard";
       BugReports.suggestion := lit "Add form validation" |};
    {| BugReports.id := lit "bug-4";
       BugReports.title := lit "Accessibility Issues";
       BugReports.severity := BugReports.low;
       BugReports.status := BugReports.resolved;
       BugReports.description := lit "Missing ARIA labels";
       BugReports.file := lit "src/components/Navigation.tsx";
       BugReports.line := 12;
       BugReports.createdAt := lit "2025-07-10T09:24:28.305Z";
       BugReports.projectName := lit "Corporate Website";
       BugReports.suggestion := lit "Add proper ARIA attributes" |} ].

(** A storage in which nothing has been saved yet. *)
Definition empty_storage : Welcome.Storage := fun _ => None.

End MoreSamples.

(* ================================================================= *)
(** ** Dashboard: what the two handlers leave alone *)

Module DashboardFrame.

(** Two fixes that differ at most in their status. *)
Definition same_but_status (f f' : Fix.t) : Prop :=
  Fix.with_status f' (Fix.status f) = f.

(** Two analysis results that differ at most in the status of their fixes. *)
Definition same_but_statuses (r r' : AnalysisResult.t) : Prop :=
  AnalysisResult.id r' = AnalysisResult.id r
  /\ AnalysisResult.timestamp r' = AnalysisResult.timestamp r
  /\ AnalysisResult.originalSpec r' = AnalysisResult.originalSpec r
  /\ AnalysisResult.enhancedSpec r' = AnalysisResult.enhancedSpec r
  /\ AnalysisResult.files r' = AnalysisResult.files r
  /\ AnalysisResult.bugs r' = AnalysisResult.bugs r
  /\ Forall2 same_but_status (AnalysisResult.fixes r)
       (AnalysisResult.fixes r').

(** The notifications of a run of a handler. *)
Fixpoint notified (t : list Dashboard.Effect) : list Notification.t :=
  match t with
  | [] => []
  | Dashboard.addNotification n :: t' => n :: notified t'
  | _ :: t' => notified t'
  end.

(** A result with the first fix rejected and the second pending. *)
Definition first_rejected : AnalysisResult.t :=
  AnalysisResult.with_fixes
    (ProjectUpload.analysisResult Sample.state Sample.world)
    [Fix.with_status ProjectUpload.fix_1 rejected; ProjectUpload.fix_2].

End DashboardFrame.

(* ================================================================= *)
(** * Properties *)

(** ** Strings *)

Module JSFacts.

Lemma eqb_eq (a b : jsstring) : JS.eqb a b = true <-> a = b.
Proof.
  revert b; induction a as [|x a IH]; intros [|y b]; simpl; split;
    try congruence; try reflexivity.
  - intros H. apply andb_true_iff in H as [Hx Hab].
    apply N.eqb_eq in Hx. apply IH in Hab. congruence.
  - intros H. injection H as -> ->.
    rewrite N.eqb_refl. simpl. now apply IH.
Qed.

Lemma eqb_refl (a : jsstring) : JS.eqb a a = true.
Proof. now apply eqb_eq. Qed.

Lemma eqb_neq (a b : jsstring) : JS.eqb a b = false <-> a <> b.
Proof.
  split.
  - intros H E. apply eqb_eq in E. congruence.
  - intros H. destruct (JS.eqb a b) eqn:E; [|reflexivity].
    apply eqb_eq in E. contradiction.
Qed.

(** [trimStart] leaves nothing exactly when every code unit is white space. *)
Lemma trimStart_nil (s : jsstring) :
  trimStart s = [] <-> Forall (fun c => isWhiteSpace c = true) s.
Proof.
  induction s as [|c s IH]; simpl.
  - split; auto.
  - destruct (isWhiteSpace c) eqn:E.
    + rewrite IH. split; intros H.
      * constructor; assumption.
      * now inversion H.
    + split; intros H; [discriminate|].
      inversion H; congruence.
Qed.

(** What [trimStart] leaves does not start with white space. *)
Lemma trimStart_head (s : jsstring) c r :
  trimStart s = c :: r -> isWhiteSpace c = false.
Proof.
  induction s as [|a s IH]; simpl; [discriminate|].
  destruct (isWhiteSpace a) eqn:E; [assumption|].
  intros H; injection H as -> _. assumption.
Qed.

(** [s.trim()] is empty exactly when [s] is empty or white space only. *)
Lemma trim_nil (s : jsstring) :
  trim s = [] <-> Forall (fun c => isWhiteSpace c = true) s.
Proof.
  unfold trim, trimEnd. split.
  - intros H.
    assert (H1 : trimStart (rev (trimStart s)) = []).
    { rewrite <- (rev_involutive (trimStart _)), H. reflexivity. }
    apply trimStart_nil in H1.
    destruct (trimStart s) as [|c r] eqn:E.
    + now apply trimStart_nil.
    + apply trimStart_head in E.
      apply Forall_rev in H1. rewrite rev_involutive in H1.
      inversion H1; congruence.
  - intros H. apply trimStart_nil in H. rewrite H. reflexivity.
Qed.

Lemma truthy_trim_false (s : jsstring) :
  truthy (trim s) = false <-> Forall (fun c => isWhiteSpace c = true) s.
Proof.
  rewrite <- trim_nil. destruct (trim s); simpl; split; congruence.
Qed.

End JSFacts.

(** ** Runs of handlers *)

Module EffFacts.

Section Run.
Context {E X : Type}.

Lemma trace_bind {A B} (m : Eff.M E X A) (k : A -> Eff.M E X B) :
  Eff.trace (Eff.bind m k) =
  Eff.trace m ++
  match Eff.outcome m with inl a => Eff.trace (k a) | inr _ => [] end.
Proof.
  destruct m as [t [a|x]]; simpl.
  - destruct (k a); reflexivity.
  - now rewrite app_nil_r.
Qed.

Lemma outcome_bind {A B} (m : Eff.M E X A) (k : A -> Eff.M E X B) :
  Eff.outcome (Eff.bind m k) =
  match Eff.outcome m with inl a => Eff.outcome (k a) | inr x => inr x end.
Proof.
  destruct m as [t [a|x]]; simpl; [destruct (k a)|]; reflexivity.
Qed.

Lemma trace_try_catch {A} (m : Eff.M E X A) (h : X -> Eff.M E X A) :
  Eff.trace (Eff.try_catch m h) =
  Eff.trace m ++
  match Eff.outcome m with inl _ => [] | inr x => Eff.trace (h x) end.
Proof.
  destruct m as [t [a|x]]; simpl.
  - now rewrite app_nil_r.
  - destruct (h x); reflexivity.
Qed.

Lemma outcome_try_catch {A} (m : Eff.M E X A) (h : X -> Eff.M E X A) :
  Eff.outcome (Eff.try_catch m h) =
  match Eff.outcome m with inl a => inl a | inr x => Eff.outcome (h x) end.
Proof.
  destruct m as [t [a|x]]; simpl; [|destruct (h x)]; reflexivity.
Qed.

Lemma trace_finally {A} (m : Eff.M E X A) (f : Eff.M E X unit) :
  Eff.trace (Eff.finally m f) = Eff.trace m ++ Eff.trace f.
Proof. destruct m as [t r], f as [t' [u|x]]; reflexivity. Qed.

Lemma outcome_finally {A} (m : Eff.M E X A) (f : Eff.M E X unit) :
  Eff.outcome (Eff.finally m f) =
  match Eff.outcome f with inl _ => Eff.outcome m | inr x => inr x end.
Proof. destruct m as [t r], f as [t' [u|x]]; reflexivity. Qed.

End Run.

End EffFacts.

(** ** The analysis pipeline of the UI *)

Module ProjectUploadFacts.

Import ProjectUpload.

(** The guard of [startAnalysis], in words: the specification is empty or
    white space only, or no file has been uploaded. *)
Lemma nothing_to_analyze_spec (st : State) :
  nothing_to_analyze st = true <->
  Forall (fun c => isWhiteSpace c = true) (originalSpec st)
  \/ uploadedFiles st = [].
Proof.
  unfold nothing_to_analyze. rewrite orb_true_iff, negb_true_iff.
  rewrite JSFacts.truthy_trim_false.
  destruct (uploadedFiles st) as [|f fs]; simpl.
  - intuition.
  - split; intros [H|H]; auto; discriminate.
Qed.

(** [enhanceSpec] catches what it throws and hands over no result. *)
Lemma enhanceSpec_quiet (st : State) (w : World) :
  Eff.outcome (enhanceSpec st w) = inl tt
  /\ produced (Eff.trace (enhanceSpec st w)) = [].
Proof.
  unfold enhanceSpec.
  destruct (negb (truthy (trim (originalSpec st)))); [split; reflexivity|].
  destruct (blink_ai_generateText w _ _); split; reflexivity.
Qed.

Lemma produced_app (a b : list Effect) :
  produced (a ++ b) = produced a ++ produced b.
Proof.
  induction a as [|e a IH]; simpl; [reflexivity|].
  destruct e; simpl; now rewrite IH.
Qed.

Lemma produced_notify (w : World) n : produced (Eff.trace (notify w n)) = [].
Proof.
  unfold notify. destruct (onNotification_prop w) as [returns|]; [|reflexivity].
  destruct (returns n); reflexivity.
Qed.

Ltac step_trace :=
  rewrite EffFacts.trace_bind;
  cbn [Eff.outcome Eff.trace emit Eff.emit Eff.ret Eff.throw fst snd];
  rewrite ?produced_app; cbn [produced app].

(** The [try] block always reaches [onAnalysisComplete], once, with the
    object literal of the source. *)
Lemma produced_try_block (st : State) (w : World) :
  produced (Eff.trace (try_block st w)) = [analysisResult st w].
Proof.
  unfold try_block.
  assert (H : Eff.outcome (if negb (truthy (enhancedSpec st))
                           then enhanceSpec st w else Eff.ret tt) = inl tt
              /\ produced (Eff.trace (if negb (truthy (enhancedSpec st))
                           then enhanceSpec st w else Eff.ret tt)) = []).
  { destruct (negb (truthy (enhancedSpec st)));
      [apply enhanceSpec_quiet | split; reflexivity]. }
  destruct H as [Ho Hp].
  rewrite EffFacts.trace_bind, produced_app, Hp, Ho.
  do 16 step_trace.
  destruct (onAnalysisComplete_returns w (analysisResult st w));
    step_trace; rewrite ?produced_notify; reflexivity.
Qed.

Lemma produced_catch_block (w : World) x :
  produced (Eff.trace (catch_block w x)) = [].
Proof. unfold catch_block. step_trace. apply produced_notify. Qed.

(** Past the guard, a run hands exactly one result to [onAnalysisComplete]. *)
Lemma startAnalysis_produces (st : State) (w : World) :
  nothing_to_analyze st = false ->
  produced (Eff.trace (startAnalysis st w)) = [analysisResult st w].
Proof.
  intros G. unfold startAnalysis. rewrite G.
  do 2 step_trace.
  rewrite EffFacts.trace_finally, EffFacts.trace_try_catch, !produced_app.
  rewrite produced_try_block.
  destruct (Eff.outcome (try_block st w)); rewrite ?produced_catch_block;
    reflexivity.
Qed.

Lemma startAnalysis_skips (st : State) (w : World) :
  nothing_to_analyze st = true -> startAnalysis st w = Eff.ret tt.
Proof. intros G. unfold startAnalysis. now rewrite G. Qed.

(** Every result a run produces is the object literal of the source. *)
Lemma produced_inv (st : State) (w : World) r :
  In r (produced (Eff.trace (startAnalysis st w))) -> r = analysisResult st w.
Proof.
  destruct (nothing_to_analyze st) eqn:G.
  - rewrite (startAnalysis_skips st w G). simpl. tauto.
  - rewrite (startAnalysis_produces st w G). simpl. intuition.
Qed.

(** C10: if the original specification is empty or white space only, or no
    file has been uploaded, [startAnalysis] returns at once: it performs no
    action at all, so it produces no analysis result, sends no notification,
    leaves the state of the component as it is, and raises no error. *)
Theorem startAnalysis_without_input (st : State) (w : World) :
  Forall (fun c => isWhiteSpace c = true) (originalSpec st)
  \/ uploadedFiles st = [] ->
  Eff.trace (startAnalysis st w) = []
  /\ Eff.outcome (startAnalysis st w) = inl tt
  /\ produced (Eff.trace (startAnalysis st w)) = []
  /\ notified (Eff.trace (startAnalysis st w)) = []
  /\ apply_effects st (Eff.trace (startAnalysis st w)) = st.
Proof.
  intros H. apply nothing_to_analyze_spec in H.
  rewrite (startAnalysis_skips st w H). repeat split.
Qed.

Lemma startAnalysis_without_input_witness :
  Forall (fun c => isWhiteSpace c = true) (originalSpec Sample.blank_state)
  /\ Eff.trace (startAnalysis Sample.blank_state Sample.world) = []
  /\ Eff.outcome (startAnalysis Sample.blank_state Sample.world) = inl tt.
Proof.
  assert (H : Forall (fun c => isWhiteSpace c = true)
                (originalSpec Sample.blank_state))
    by (repeat constructor).
  split; [exact H|].
  destruct (startAnalysis_without_input Sample.blank_state Sample.world
              (or_introl H)) as (Ht & Ho & _).
  split; assumption.
Defined.

(** C9: every invocation of [startAnalysis] that gets past its guard hands
    exactly one analysis result to [onAnalysisComplete], whatever the
    specification text, the uploaded files, the answer of the text service
    and the behaviour of the callbacks are; its bugs are the three of the
    source with ids bug-1, bug-2, bug-3 and its fixes the two of the source,
    for bug-1 and bug-2. *)
Theorem startAnalysis_fixed_findings (st : State) (w : World) :
  nothing_to_analyze st = false ->
  exists r,
    produced (Eff.trace (startAnalysis st w)) = [r]
    /\ map Bug.id (AnalysisResult.bugs r)
       = [lit "bug-1"; lit "bug-2"; lit "bug-3"]
    /\ map Fix.bugId (AnalysisResult.fixes r) = [lit "bug-1"; lit "bug-2"]
    /\ AnalysisResult.bugs r = analysis_bugs
    /\ AnalysisResult.fixes r = analysis_fixes.
Proof.
  intros G. exists (analysisResult st w).
  split; [now apply startAnalysis_produces|].
  repeat split.
Qed.

Lemma startAnalysis_fixed_findings_witness :
  nothing_to_analyze Sample.state = false
  /\ exists r,
       produced (Eff.trace (startAnalysis Sample.state Sample.world)) = [r]
       /\ map Bug.id (AnalysisResult.bugs r)
          = [lit "bug-1"; lit "bug-2"; lit "bug-3"]
       /\ map Fix.bugId (AnalysisResult.fixes r) = [lit "bug-1"; lit "bug-2"]
       /\ AnalysisResult.bugs r = analysis_bugs
       /\ AnalysisResult.fixes r = analysis_fixes.
Proof.
  split; [reflexivity|].
  apply (startAnalysis_fixed_findings Sample.state Sample.world).
  reflexivity.
Defined.

(** C2, as stated, fails: the same state analysed at two readings of the
    clock gives two different results, which differ in [id] and
    [timestamp]. *)
Lemma startAnalysis_depends_on_clock :
  produced (Eff.trace (startAnalysis Sample.state Sample.world))
    = [analysisResult Sample.state Sample.world]
  /\ produced (Eff.trace (startAnalysis Sample.state Sample.world_later))
    = [analysisResult Sample.state Sample.world_later]
  /\ AnalysisResult.id (analysisResult Sample.state Sample.world)
    = lit "analysis-1752744268305"
  /\ AnalysisResult.id (analysisResult Sample.state Sample.world_later)
    = lit "analysis-1752744328305"
  /\ AnalysisResult.timestamp (analysisResult Sample.state Sample.world)
    = lit "2025-07-17T09:24:28.305Z"
  /\ AnalysisResult.timestamp (analysisResult Sample.state Sample.world_later)
    = lit "2025-07-17T09:25:28.305Z"
  /\ analysisResult Sample.state Sample.world
    <> analysisResult Sample.state Sample.world_later.
Proof.
  repeat split; try (apply startAnalysis_produces; reflexivity);
    try (vm_compute; reflexivity).
  intros E. apply (f_equal AnalysisResult.id) in E.
  vm_compute in E. discriminate E.
Qed.

(** C2, amended: two runs of [startAnalysis] on the same state give results
    that agree in every field except [id] and [timestamp], which are read
    from the clock; the bugs and the fixes are the same lists in the same
    order. Two runs at the same readings of the clock give the same
    results. Neither the answer of the text service nor the callbacks have a
    part in the result. *)
Theorem startAnalysis_deterministic_up_to_clock (st : State) (w1 w2 : World) :
  Forall2 same_up_to_clock
    (produced (Eff.trace (startAnalysis st w1)))
    (produced (Eff.trace (startAnalysis st w2)))
  /\ (Date_now w1 = Date_now w2 /\ new_Date w1 = new_Date w2 ->
      produced (Eff.trace (startAnalysis st w1))
      = produced (Eff.trace (startAnalysis st w2))).
Proof.
  destruct (nothing_to_analyze st) eqn:G.
  - rewrite !(startAnalysis_skips st _ G). split; [constructor|reflexivity].
  - rewrite !(startAnalysis_produces st _ G). split.
    + constructor; [|constructor]. repeat split.
    + intros [Hn Hd]. unfold analysisResult. now rewrite Hn, Hd.
Qed.

End ProjectUploadFacts.

(** ** The dashboard and its viewer *)

Module DashboardFacts.

Import Dashboard.

Lemma mark_ids fixId s fixes :
  map Fix.id (mark fixId s fixes) = map Fix.id fixes.
Proof.
  induction fixes as [|f l IH]; simpl; [reflexivity|].
  rewrite IH. destruct (JS.eqb (Fix.id f) fixId); reflexivity.
Qed.

Lemma after_app ad t1 t2 : after ad (t1 ++ t2) = after (after ad t1) t2.
Proof.
  revert ad; induction t1 as [|e t1 IH]; intros ad; simpl; [reflexivity|].
  destruct e; apply IH.
Qed.

Lemma after_notify ad returns n :
  after ad (Eff.trace (notify returns n)) = ad.
Proof. unfold notify. simpl. destruct (returns n); reflexivity. Qed.

(** What a handler leaves in [analysisData]: the data with the fix of the
    given id marked; nothing when there is no analysis yet. *)
Lemma fixes_after_handleApplyFix ad returns fixId :
  fixes_prop (after ad (Eff.trace (handleApplyFix ad returns fixId)))
  = mark fixId applied (fixes_prop ad).
Proof.
  unfold handleApplyFix. rewrite EffFacts.trace_try_catch, after_app.
  destruct ad as [data|]; simpl.
  - unfold notify. simpl.
    destruct (returns _); simpl; [reflexivity|].
    destruct (returns _); reflexivity.
  - reflexivity.
Qed.

Lemma fixes_after_handleRejectFix ad returns fixId :
  fixes_prop (after ad (Eff.trace (handleRejectFix ad returns fixId)))
  = mark fixId rejected (fixes_prop ad).
Proof.
  unfold handleRejectFix. rewrite EffFacts.trace_try_catch, after_app.
  destruct ad as [data|]; simpl.
  - unfold notify. simpl.
    destruct (returns _); simpl; [reflexivity|].
    destruct (returns _); reflexivity.
  - reflexivity.
Qed.

Lemma status_moves_refl f : status_moves f f.
Proof. split; [reflexivity|left; reflexivity]. Qed.

Lemma status_moves_trans f g h :
  status_moves f g -> status_moves g h -> status_moves f h.
Proof.
  intros [Hi1 H1] [Hi2 H2]. split; [congruence|].
  destruct H1 as [H1|[H1 H1']], H2 as [H2|[H2 H2']].
  - left; congruence.
  - right. split; [congruence|assumption].
  - right. split; [assumption|]. rewrite H2. assumption.
  - destruct H1'; congruence.
Qed.

Lemma Forall2_status_moves_refl l : Forall2 status_moves l l.
Proof. induction l; constructor; auto using status_moves_refl. Qed.

Lemma Forall2_status_moves_trans l1 l2 l3 :
  Forall2 status_moves l1 l2 -> Forall2 status_moves l2 l3 ->
  Forall2 status_moves l1 l3.
Proof.
  intros H; revert l3; induction H; intros l3 H3; inversion H3; subst;
    constructor; eauto using status_moves_trans.
Qed.

(** Marking moves only fixes of the given id, and moves them as allowed when
    every such fix is pending. *)
Lemma mark_moves fixId s fixes :
  s = applied \/ s = rejected ->
  (forall f, In f fixes -> Fix.id f = fixId -> Fix.status f = pending) ->
  Forall2 status_moves fixes (mark fixId s fixes).
Proof.
  intros Hs. induction fixes as [|f l IH]; intros H; simpl; constructor.
  - destruct (JS.eqb (Fix.id f) fixId) eqn:E.
    + apply JSFacts.eqb_eq in E. split; [reflexivity|]. right.
      split; [apply H; simpl; auto|]. simpl. assumption.
    + apply status_moves_refl.
  - apply IH. intros g Hg. apply H. simpl; auto.
Qed.

(** Among fixes with distinct ids, the id determines the fix. *)
Lemma NoDup_id_inj (fixes : list Fix.t) f g :
  NoDup (map Fix.id fixes) -> In f fixes -> In g fixes ->
  Fix.id f = Fix.id g -> f = g.
Proof.
  induction fixes as [|h l IH]; simpl; intros ND Hf Hg E; [contradiction|].
  inversion ND as [|? ? Hn ND']; subst.
  destruct Hf as [->|Hf], Hg as [->|Hg].
  - reflexivity.
  - exfalso. apply Hn. rewrite E. now apply in_map.
  - exfalso. apply Hn. rewrite <- E. now apply in_map.
  - now apply IH.
Qed.

(** When the buttons are on the screen, every provided fix of the id they
    pass is pending. *)
Lemma actions_pending fixes sel fixId :
  NoDup (map Fix.id fixes) ->
  CodeDiffViewer.actions fixes sel = Some fixId ->
  forall f, In f fixes -> Fix.id f = fixId -> Fix.status f = pending.
Proof.
  intros ND H f Hf Hid.
  unfold CodeDiffViewer.actions, CodeDiffViewer.selectedFixData in H.
  destruct sel as [sel|]; [|discriminate].
  destruct (find _ _) as [g|] eqn:Hfind; [|discriminate].
  destruct (FixStatus_eqb (Fix.status g) pending) eqn:Hst; [|discriminate].
  injection H as <-.
  apply find_some in Hfind as [Hg _].
  unfold CodeDiffViewer.displayFixes in Hg.
  destruct fixes as [|f0 l]; [contradiction|].
  replace (Z.of_nat (length (f0 :: l)) >? 0) with true in Hg
    by (symmetry; apply Z.gtb_lt; simpl length; lia).
  rewrite (NoDup_id_inj _ f g ND Hf Hg Hid).
  destruct (Fix.status g); simpl in Hst; congruence.
Qed.

Lemma viewer_step_moves ui ui' :
  NoDup (map Fix.id (fixes_prop (analysisData ui))) ->
  viewer_step ui ui' ->
  Forall2 status_moves (fixes_prop (analysisData ui))
    (fixes_prop (analysisData ui')).
Proof.
  intros ND H. destruct H; simpl.
  - apply Forall2_status_moves_refl.
  - apply Forall2_status_moves_refl.
  - rewrite fixes_after_handleApplyFix. apply mark_moves; [auto|].
    eapply actions_pending; eassumption.
  - rewrite fixes_after_handleRejectFix. apply mark_moves; [auto|].
    eapply actions_pending; eassumption.
Qed.

Lemma Forall2_status_moves_ids l l' :
  Forall2 status_moves l l' -> map Fix.id l' = map Fix.id l.
Proof.
  induction 1 as [|f f' l l' [Hi _] _ IH]; simpl; congruence.
Qed.

Lemma analysis_fixes_ids :
  map Fix.id ProjectUpload.analysis_fixes = [lit "fix-1"; lit "fix-2"].
Proof. reflexivity. Qed.

Lemma analysis_step_fixes ui ui' :
  analysis_step ui ui' ->
  fixes_prop (analysisData ui') = ProjectUpload.analysis_fixes.
Proof.
  intros H. destruct H as [ui st w r Hr]. simpl.
  apply ProjectUploadFacts.produced_inv in Hr. now subst r.
Qed.

(** The fixes on the screen always have distinct ids. *)
Lemma reachable_NoDup ui :
  reachable ui -> NoDup (map Fix.id (fixes_prop (analysisData ui))).
Proof.
  induction 1 as [|ui ui' _ IH Hs|ui ui' _ IH Hs].
  - constructor.
  - rewrite (Forall2_status_moves_ids _ _ (viewer_step_moves _ _ IH Hs)).
    assumption.
  - rewrite (analysis_step_fixes _ _ Hs), analysis_fixes_ids.
    repeat constructor; simpl; intuition discriminate.
Qed.

Lemma viewer_steps_moves ui ui' :
  reachable ui -> viewer_steps ui ui' ->
  Forall2 status_moves (fixes_prop (analysisData ui))
    (fixes_prop (analysisData ui')).
Proof.
  intros R H. induction H as [ui|ui ui' ui'' Hs _ IH].
  - apply Forall2_status_moves_refl.
  - eapply Forall2_status_moves_trans.
    + apply viewer_step_moves; [now apply reachable_NoDup|eassumption].
    + apply IH. eapply reachable_viewer; eassumption.
Qed.

Lemma status_moves_terminal f f' :
  status_moves f f' ->
  Fix.status f <> pending -> Fix.status f' = Fix.status f.
Proof. intros [_ [H|[H _]]] Hn; [assumption|contradiction]. Qed.

(** C5, amended: the fixes an analysis run delivers are all pending. From
    then on, as long as that analysis result is the one on display, whatever
    the user does in the viewer (in any state the dashboard can reach), the
    status of a fix of that result either stays as it is or goes from
    pending to applied or from pending to rejected; so a fix that is applied
    or rejected keeps its status, and a rejected fix is not applied. The
    handlers do not check the status themselves: the viewer shows the Apply
    and Reject buttons for a pending fix only, and the ids of the fixes on
    the screen are distinct. *)
Theorem fix_status_lifecycle (ui ui' : UI) :
  reachable ui ->
  (analysis_step ui ui' ->
   Forall (fun f => Fix.status f = pending) (fixes_prop (analysisData ui')))
  /\ (viewer_steps ui ui' ->
      Forall2 status_moves (fixes_prop (analysisData ui))
        (fixes_prop (analysisData ui'))
      /\ Forall2 (fun f f' => Fix.status f <> pending ->
                              Fix.status f' = Fix.status f)
           (fixes_prop (analysisData ui)) (fixes_prop (analysisData ui'))).
Proof.
  intros R. split.
  - intros H. rewrite (analysis_step_fixes _ _ H). repeat constructor.
  - intros H. pose proof (viewer_steps_moves ui ui' R H) as M.
    split; [exact M|].
    induction M; constructor; auto using status_moves_terminal.
Qed.

Lemma sample_reachable : reachable Sample.after_analysis.
Proof.
  apply (reachable_analysis initial); [constructor|].
  apply (analysis_complete initial Sample.state Sample.world).
  rewrite ProjectUploadFacts.startAnalysis_produces by reflexivity.
  left; reflexivity.
Qed.

Lemma sample_steps : viewer_steps Sample.after_analysis Sample.first_applied.
Proof.
  apply (viewer_steps_step _ Sample.first_selected).
  - apply (click_entry Sample.after_analysis ProjectUpload.fix_1).
    left; reflexivity.
  - apply (viewer_steps_step _ Sample.first_applied); [|constructor].
    apply (click_apply Sample.first_selected (lit "fix-1") (fun _ => true)).
    reflexivity.
Qed.

Lemma fix_status_lifecycle_witness :
  reachable Sample.after_analysis
  /\ viewer_steps Sample.after_analysis Sample.first_applied
  /\ Forall2 status_moves
       (fixes_prop (analysisData Sample.after_analysis))
       (fixes_prop (analysisData Sample.first_applied)).
Proof.
  split; [exact sample_reachable|]. split; [exact sample_steps|].
  exact (proj1 (proj2 (fix_status_lifecycle Sample.after_analysis
                         Sample.first_applied sample_reachable) sample_steps)).
Defined.

Lemma status_moves_heads (l l' : list Fix.t) (f f' : Fix.t) :
  Forall2 status_moves l l' ->
  hd_error l = Some f -> hd_error l' = Some f' -> status_moves f f'.
Proof.
  intros [|g g' k k' H _]; simpl; intros E E'; [discriminate|].
  injection E as <-. injection E' as <-. exact H.
Qed.

(** C5, as stated, fails across analysis runs. The user rejects the fix
    fix-1 and runs the analysis again; the new result replaces the old one,
    its fixes carry the same ids and are pending, and the viewer offers the
    buttons again: fix-1, rejected before, is applied. *)
Lemma rejected_fix_applied_after_new_analysis :
  reachable Sample.rejected_then_left
  /\ map (fun f => (Fix.id f, Fix.status f))
       (fixes_prop (analysisData Sample.rejected_then_left))
     = [(lit "fix-1", rejected); (lit "fix-2", pending)]
  /\ analysis_step Sample.rejected_then_left Sample.analysed_again
  /\ viewer_step Sample.analysed_again Sample.selected_again
  /\ viewer_step Sample.selected_again Sample.applied_after_all
  /\ reachable Sample.applied_after_all
  /\ map (fun f => (Fix.id f, Fix.status f))
       (fixes_prop (analysisData Sample.applied_after_all))
     = [(lit "fix-1", applied); (lit "fix-2", pending)]
  /\ ~ Forall2 status_moves
         (fixes_prop (analysisData Sample.rejected_then_left))
         (fixes_prop (analysisData Sample.applied_after_all)).
Proof.
  assert (R1 : reachable Sample.rejected_then_left).
  { apply (reachable_viewer
             {| analysisData := analysisData Sample.rejected_then_left;
                selectedFix := Some (lit "fix-1") |});
      [|apply (leave_tab
                 {| analysisData := analysisData Sample.rejected_then_left;
                    selectedFix := Some (lit "fix-1") |})].
    apply (reachable_viewer Sample.first_selected).
    - apply (reachable_viewer Sample.after_analysis);
        [exact sample_reachable|].
      apply (click_entry Sample.after_analysis ProjectUpload.fix_1).
      left; reflexivity.
    - apply (click_reject Sample.first_selected (lit "fix-1") (fun _ => true)).
      reflexivity. }
  assert (S1 : analysis_step Sample.rejected_then_left Sample.analysed_again).
  { apply (analysis_complete Sample.rejected_then_left Sample.state
             Sample.world_later).
    rewrite ProjectUploadFacts.startAnalysis_produces by reflexivity.
    left; reflexivity. }
  assert (S2 : viewer_step Sample.analysed_again Sample.selected_again).
  { apply (click_entry Sample.analysed_again ProjectUpload.fix_1).
    left; reflexivity. }
  assert (S3 : viewer_step Sample.selected_again Sample.applied_after_all).
  { apply (click_apply Sample.selected_again (lit "fix-1") (fun _ => true)).
    reflexivity. }
  split; [exact R1|]. split; [reflexivity|]. split; [exact S1|].
  split; [exact S2|]. split; [exact S3|]. split.
  - apply (reachable_viewer Sample.selected_again); [|exact S3].
    apply (reachable_viewer Sample.analysed_again); [|exact S2].
    apply (reachable_analysis Sample.rejected_then_left); assumption.
  - split; [reflexivity|].
    intros H.
    pose proof (status_moves_heads _ _
                  (Fix.with_status ProjectUpload.fix_1 rejected)
                  (Fix.with_status ProjectUpload.fix_1 applied)
                  H eq_refl eq_refl) as [_ [E|[E _]]];
      discriminate E.
Qed.

Example sample_statuses :
  map Fix.status (fixes_prop (analysisData Sample.first_applied)) = [applied; pending].
Proof. reflexivity. Qed.

(** The handlers themselves do not look at the status: called directly with
    the id of a rejected fix, [handleApplyFix] marks it applied. The check is
    the viewer's, which shows the buttons for a pending fix only. *)
Example handleApplyFix_does_not_check :
  map Fix.status
    (fixes_prop
       (after (Some (AnalysisResult.with_fixes
                       (ProjectUpload.analysisResult Sample.state Sample.world)
                       [Fix.with_status ProjectUpload.fix_1 rejected]))
          (Eff.trace
             (handleApplyFix
                (Some (AnalysisResult.with_fixes
                         (ProjectUpload.analysisResult Sample.state Sample.world)
                         [Fix.with_status ProjectUpload.fix_1 rejected]))
                (fun _ => true) (lit "fix-1")))))
  = [applied].
Proof. reflexivity. Qed.

End DashboardFacts.

(** ** The debugger engine *)

Local Open Scope nat_scope.

Module DebuggerEngineFacts.

Import DebuggerEngine.

(** *** Identifiers *)

Lemma to_uint_not_Nil (n : nat) : Nat.to_uint n <> Decimal.Nil.
Proof.
  intros E. pose proof (Unsigned.of_to n) as H. rewrite E in H.
  simpl in H. subst n. discriminate E.
Qed.

Lemma after_last_digits (d : Decimal.uint) :
  after_last "_" (NilEmpty.string_of_uint d) = None.
Proof. induction d; simpl; rewrite ?IHd; reflexivity. Qed.

Lemma after_last_decimal (n : nat) : after_last "_" (decimal n) = None.
Proof.
  unfold decimal, NilZero.string_of_uint.
  destruct (Nat.to_uint n) eqn:E; try reflexivity;
    rewrite <- E; apply after_last_digits.
Qed.

Lemma after_last_append (c : ascii) (p t : string) :
  after_last c t = None ->
  after_last c (p ++ String c t) = Some t.
Proof.
  intros H. induction p as [|a p IH]; simpl.
  - rewrite H, Ascii.eqb_refl. reflexivity.
  - rewrite IH. reflexivity.
Qed.

Lemma uint_of_decimal (n : nat) :
  NilZero.uint_of_string (decimal n) = Some (Nat.to_uint n).
Proof. apply NilZero.usu, to_uint_not_Nil. Qed.

(** The ordinal can be read back from an id, whatever the prefix. *)
Lemma ordinal_of_make_id (prefix : string) (n : nat) :
  ordinal_of (make_id prefix n) = Some n.
Proof.
  unfold ordinal_of, make_id.
  change (prefix ++ "_" ++ decimal n)%string
    with (prefix ++ String "_" (decimal n))%string.
  rewrite after_last_append by apply after_last_decimal.
  rewrite uint_of_decimal. simpl. now rewrite Unsigned.of_to.
Qed.







(** *** The counter *)

(** A bug carries the id its category and an ordinal make. *)
Definition numbered (b : Bug.t) (k : nat) : Prop :=
  Bug.id b = make_id (prefix_of (Bug.category b)) k.

(** A source numbers its bugs consecutively from the counter it finds and
    leaves the counter after the last. *)
Definition consecutive (m : Counter (list Bug.t)) : Prop :=
  forall n,
    snd (m n) = n + length (fst (m n))
    /\ Forall2 numbered (fst (m n)) (seq n (length (fst (m n)))).

(** A rule makes one bug and takes one ordinal for it. *)
Definition one_each {A} (f : A -> Counter Bug.t) : Prop :=
  forall a n, snd (f a n) = S n /\ numbered (fst (f a n)) n.

Lemma for_each_consecutive {A} (f : A -> Counter Bug.t) (l : list A) :
  one_each f -> consecutive (for_each f l).
Proof.
  intros Hf. induction l as [|a l IH]; intros n; simpl.
  - split; [now rewrite Nat.add_0_r|constructor].
  - unfold bind, ret. destruct (Hf a n) as [Hn Hb].
    destruct (f a n) as [b n1]. simpl in Hn, Hb. subst n1.
    destruct (IH (S n)) as [Hn' Hbs].
    destruct (for_each f l (S n)) as [bs n2]. simpl in *. subst n2.
    split; [lia|]. constructor; assumption.
Qed.

Lemma for_each_length {A} (f : A -> Counter Bug.t) (l : list A) n :
  length (fst (for_each f l n)) = length l.
Proof.
  revert n. induction l as [|a l IH]; intros n; simpl; [reflexivity|].
  unfold bind, ret. destruct (f a n) as [b n1].
  specialize (IH n1). destruct (for_each f l n1) as [bs n2].
  simpl in *. now rewrite IH.
Qed.

Lemma in_order_consecutive (sources : list (Counter (list Bug.t))) :
  Forall consecutive sources -> consecutive (in_order sources).
Proof.
  induction 1 as [|m ms Hm _ IH]; intros n; simpl.
  - split; [now rewrite Nat.add_0_r|constructor].
  - unfold bind, ret. destruct (Hm n) as [Hn Hb].
    destruct (m n) as [bs n1]. simpl in Hn, Hb. subst n1.
    destruct (IH (n + length bs)) as [Hn' Hbs].
    destruct (in_order ms (n + length bs)) as [bs' n2]. simpl in *. subst n2.
    rewrite length_app. split; [lia|].
    rewrite seq_app. apply Forall2_app; assumption.
Qed.

Lemma report_one_each {A} (c : A -> Category) (make : A -> string -> Bug.t) :
  (forall a id, Bug.id (make a id) = id) ->
  (forall a id, Bug.category (make a id) = c a) ->
  one_each (fun a => report (c a) (make a)).
Proof.
  intros Hid Hc a n. unfold report, bind, next_ordinal, ret, numbered. simpl.
  split; [reflexivity|]. now rewrite Hid, Hc.
Qed.

Section Rules.
Variable policy : Policy.

Lemma rules_one_each :
  one_each bug_of_missing
  /\ one_each (bug_of_deviation policy)
  /\ one_each (bug_of_mismatch policy)
  /\ one_each (bug_of_match policy)
  /\ one_each (bug_of_log_entry policy)
  /\ one_each bug_of_slow_query
  /\ one_each bug_of_ui_issue.
Proof.
  repeat split; intros a n; reflexivity.
Qed.

Lemma classify_all_consecutive r scan runtimeLog uiFlowTrace :
  consecutive (classify_all policy r scan runtimeLog uiFlowTrace).
Proof.
  destruct rules_one_each as (H1 & H2 & H3 & H4 & H5 & H6 & H7).
  unfold classify_all. apply in_order_consecutive.
  repeat constructor; apply for_each_consecutive; assumption.
Qed.




(** The ids of a run, in the order of classification. *)
Lemma classify_numbered r scan runtimeLog uiFlowTrace :
  Forall2 numbered (classify policy r scan runtimeLog uiFlowTrace)
    (seq 0 (length (classify policy r scan runtimeLog uiFlowTrace))).
Proof. apply (classify_all_consecutive r scan runtimeLog uiFlowTrace 0). Qed.

End Rules.

Lemma numbered_ordinals (bugs : list Bug.t) (ks : list nat) :
  Forall2 numbered bugs ks ->
  map (fun b => ordinal_of (Bug.id b)) bugs = map Some ks.
Proof.
  induction 1 as [|b k bugs ks Hb _ IH]; simpl; [reflexivity|].
  rewrite IH, Hb, ordinal_of_make_id. reflexivity.
Qed.

Lemma numbered_NoDup (bugs : list Bug.t) (n : nat) :
  Forall2 numbered bugs (seq n (length bugs)) -> NoDup (map Bug.id bugs).
Proof.
  intros H. apply numbered_ordinals in H.
  apply (NoDup_map_inv ordinal_of). rewrite map_map, H.
  apply Finite.Injective_map_NoDup; [|apply seq_NoDup].
  intros x y E. now injection E.
Qed.



(** *** Fixes *)

Section Fixes.
Variable generator : Bug.t -> option Template.
Variable render : string -> Z -> Z -> string -> string -> string.

Lemma synthesize_bug_id bug f :
  synthesize generator render bug = Some f -> Fix.bug_id f = Bug.id bug.
Proof.
  unfold synthesize. destruct (generator bug); [|discriminate].
  intros H; injection H as <-. reflexivity.
Qed.

Lemma generate_fixes_owner bugs f :
  In f (generate_fixes generator render bugs) ->
  exists bug, In bug bugs /\ Bug.id bug = Fix.bug_id f.
Proof.
  induction bugs as [|b bugs IH]; simpl; [contradiction|].
  destruct (synthesize generator render b) as [g|] eqn:E.
  - intros [<-|H].
    + exists b. split; [now left|]. symmetry. now apply synthesize_bug_id.
    + destruct (IH H) as (bug & Hin & Hid). exists bug. split; [now right|auto].
  - intros H. destruct (IH H) as (bug & Hin & Hid).
    exists bug. split; [now right|auto].
Qed.

Lemma generate_fixes_NoDup bugs :
  NoDup (map Bug.id bugs) ->
  NoDup (map Fix.bug_id (generate_fixes generator render bugs)).
Proof.
  induction bugs as [|b bugs IH]; simpl; intros ND; [constructor|].
  inversion ND as [|? ? Hn ND']; subst.
  destruct (synthesize generator render b) as [g|] eqn:E; [|now apply IH].
  simpl. constructor; [|now apply IH].
  intros Hin. apply in_map_iff in Hin as (f & Hf & Hin).
  apply generate_fixes_owner in Hin as (bug & Hbug & Hid).
  apply Hn. rewrite <- (synthesize_bug_id _ _ E), <- Hf, <- Hid.
  now apply in_map.
Qed.

End Fixes.

(** C4: in the summary of a run, every fix carries the id of a bug of the
    same summary, and no two fixes carry the same bug id. *)
Theorem run_fix_integrity (policy : Policy)
    (generator : Bug.t -> option Template)
    (render : string -> Z -> Z -> string -> string -> string)
    (timestamp : string) (r : ComparisonReport) (scan : list PatternMatch)
    (runtimeLog : option RuntimeLog) (uiFlowTrace : option UIFlowTrace) :
  let s := run policy generator render timestamp r scan runtimeLog uiFlowTrace in
  (forall f, In f (RunSummary.fixes s) ->
     exists bug, In bug (RunSummary.bugs s) /\ Bug.id bug = Fix.bug_id f)
  /\ NoDup (map Fix.bug_id (RunSummary.fixes s)).
Proof.
  simpl. split.
  - intros f. apply generate_fixes_owner.
  - apply generate_fixes_NoDup.
    apply (numbered_NoDup _ 0), classify_numbered.
Qed.

(** *** The summary *)

Lemma count_by_severity_total (severities : list BugSeverity) :
  sum_values (count_by_severity severities) = length severities.
Proof.
  unfold count_by_severity, sum_values. simpl.
  induction severities as [|s l IH]; simpl; [reflexivity|].
  destruct s; simpl; lia.
Qed.

(** C3: in every run summary the counts of the histogram by severity add
    up to the total number of bugs. *)
Theorem severity_counts_sum (timestamp : string) (bugs : list Bug.t)
    (fixes : list Fix.t) :
  sum_values (RunSummary.bugs_by_severity (run_summary timestamp bugs fixes))
  = RunSummary.total_bugs (run_summary timestamp bugs fixes).
Proof.
  unfold run_summary.
  cbn [RunSummary.bugs_by_severity RunSummary.total_bugs].
  rewrite count_by_severity_total. apply length_map.
Qed.

(** *** The recorded run *)

Local Open Scope string_scope.

(** The recorded summary adds up, and its histogram is the count of its own
    bug list. *)
Example recorded_counts :
  count_by_severity (map Fixture.BugRow.severity Fixture.bugs)
    = Fixture.bugs_by_severity
  /\ length Fixture.bugs = Fixture.total_bugs
  /\ length Fixture.fixes = Fixture.total_fixes
  /\ sum_values Fixture.bugs_by_severity = Fixture.total_bugs.
Proof. repeat split. Qed.

(** The ids of the recorded run are made as [make_id] makes them, and their
    ordinals are 0 to 16, each once. *)
Example recorded_ids :
  forallb (fun b =>
             match ordinal_of (Fixture.BugRow.id b) with
             | Some k =>
                 String.eqb (Fixture.BugRow.id b)
                   (make_id (prefix_of (Fixture.BugRow.category b)) k)
             | None => false
             end) Fixture.bugs = true
  /\ length Fixture.bugs = 17
  /\ forallb (fun k =>
                existsb (fun b =>
                           match ordinal_of (Fixture.BugRow.id b) with
                           | Some j => Nat.eqb j k
                           | None => false
                           end) Fixture.bugs) (seq 0 17) = true.
Proof. repeat split; vm_compute; reflexivity. Qed.

(** Every recorded fix names a recorded bug, and no bug twice. *)
Example recorded_fix_integrity :
  forallb (fun f =>
             existsb (fun b => String.eqb (Fixture.BugRow.id b)
                                 (Fixture.FixRow.bug_id f)) Fixture.bugs)
    Fixture.fixes = true
  /\ map Fixture.FixRow.bug_id Fixture.fixes
     = ["quality_6"; "gap_3"; "gap_4"; "gap_5";
        "quality_7"; "quality_8"; "quality_9"; "quality_10"].
Proof. split; vm_compute; reflexivity. Qed.

End DebuggerEngineFacts.

(* ================================================================= *)
(** * Further properties of the components *)

From Stdlib Require Import DecimalZ DecimalPos Sorted.

Local Open Scope Z_scope.

(** ** Numbers as text *)

Module NumberFacts.

Lemma lit_inj (a b : string) : lit a = lit b -> a = b.
Proof.
  unfold lit. intros H.
  rewrite <- (string_of_list_ascii_of_string a),
          <- (string_of_list_ascii_of_string b).
  f_equal. revert H.
  generalize (list_ascii_of_string a) (list_ascii_of_string b).
  induction l as [|x l IH]; intros [|y l']; simpl; try discriminate; auto.
  intros H. injection H as Hx Hl. f_equal; [|now apply IH].
  rewrite <- (ascii_N_embedding x), <- (ascii_N_embedding y). now f_equal.
Qed.

Lemma to_int_proper (z : Z) :
  Z.to_int z <> Decimal.Pos Decimal.Nil /\ Z.to_int z <> Decimal.Neg Decimal.Nil.
Proof.
  destruct z as [|p|p]; simpl; split; try discriminate;
    intros H; injection H as H; now apply DecimalPos.Unsigned.to_uint_nonnil in H.
Qed.

(** [String(n)] tells integers apart. *)
Lemma number_toString_inj (a b : Z) :
  number_toString a = number_toString b -> a = b.
Proof.
  unfold number_toString. intros H. apply lit_inj in H.
  apply DecimalZ.to_int_inj.
  destruct (to_int_proper a) as [Ha1 Ha2], (to_int_proper b) as [Hb1 Hb2].
  pose proof (NilZero.isi _ Ha1 Ha2) as Ea.
  pose proof (NilZero.isi _ Hb1 Hb2) as Eb.
  rewrite H in Ea. congruence.
Qed.

Lemma lit_cons a s : lit (String a s) = N_of_ascii a :: lit s.
Proof. reflexivity. Qed.

Lemma digits_no_minus (d : Decimal.uint) :
  ~ In 45%N (lit (NilEmpty.string_of_uint d)).
Proof.
  induction d; simpl NilEmpty.string_of_uint; rewrite ?lit_cons;
    simpl; intuition discriminate.
Qed.

(** The decimal digits of a natural number hold no minus sign. *)
Lemma index_no_minus (i : nat) :
  ~ In 45%N (number_toString (Z.of_nat i)).
Proof.
  unfold number_toString.
  destruct (Z.of_nat i) as [|p|p] eqn:E; [| |lia].
  - simpl. intuition discriminate.
  - simpl Z.to_int. simpl NilZero.string_of_int.
    unfold NilZero.string_of_uint.
    pose proof (DecimalPos.Unsigned.to_uint_nonnil p) as Hn.
    destruct (Pos.to_uint p) eqn:Ep; try contradiction;
      rewrite <- Ep; apply digits_no_minus.
Qed.

(** Two lists that end in the same separator-free way after their last
    separator have the same ending. *)
Lemma suffix_after_separator {A} (c : A) (a b x y : list A) :
  a ++ c :: x = b ++ c :: y -> ~ In c x -> ~ In c y -> x = y.
Proof.
  revert b. induction a as [|a0 a IH]; intros [|b0 b] H Hx Hy; simpl in H.
  - now injection H.
  - injection H as _ H. exfalso. apply Hx. rewrite H.
    apply in_or_app. right. now left.
  - injection H as _ H. exfalso. apply Hy. rewrite <- H.
    apply in_or_app. right. now left.
  - injection H as _ H. eapply IH; eassumption.
Qed.

End NumberFacts.

(** ** More on the analysis pipeline of the UI *)

Module StartAnalysisFacts.

Import ProjectUpload ProjectUploadTrace ProjectUploadFacts.

(** Past the guard the specification is not blank, so [enhanceSpec] does not
    return early. *)
Lemma guard_spec_not_blank st :
  nothing_to_analyze st = false ->
  negb (truthy (trim (originalSpec st))) = false.
Proof.
  unfold nothing_to_analyze. intros G. now apply orb_false_iff in G.
Qed.

(** All branches of a run past the guard, each computed to its trace. *)
Ltac run_cases G :=
  unfold startAnalysis, try_block, catch_block, finally_block, enhanceSpec,
    notify;
  rewrite G, ?(guard_spec_not_blank _ G);
  repeat match goal with
    | |- context [blink_ai_generateText ?w ?p ?n] =>
        destruct (blink_ai_generateText w p n) eqn:?
    | |- context [onNotification_prop ?w] =>
        destruct (onNotification_prop w) eqn:?
    | |- context [if ?c then _ else _] => destruct c eqn:?
    end;
  cbv beta iota zeta delta
    [Eff.bind Eff.emit emit Eff.ret Eff.throw Eff.trace Eff.outcome
     Eff.try_catch Eff.finally fst snd app].

(** X1: a run of [startAnalysis] that gets past its guard always ends with
    the [finally] block, whatever the text service and the callbacks do: it
    sets [isAnalyzing] first, and its last two actions clear [isAnalyzing]
    and schedule the reset of the progress display; afterwards the component
    is not analysing. *)
Theorem startAnalysis_resets_isAnalyzing (st : State) (w : World) :
  nothing_to_analyze st = false ->
  isAnalyzing (apply_effects st (Eff.trace (startAnalysis st w))) = false
  /\ exists t,
       Eff.trace (startAnalysis st w) =
       set (setIsAnalyzing true) :: t
       ++ [ set (setIsAnalyzing false);
            setTimeout [setAnalysisProgress 0; setCurrentStep (lit "")] 2000 ].
Proof.
  intros G. run_cases G; (split; [reflexivity|]);
    match goal with
    | |- exists t, _ :: ?l = _ =>
        exists (removelast (removelast l)); reflexivity
    end.
Qed.

Lemma startAnalysis_resets_isAnalyzing_witness :
  nothing_to_analyze Sample.state = false
  /\ isAnalyzing (apply_effects Sample.state
                    (Eff.trace (startAnalysis Sample.state Sample.world)))
     = false.
Proof.
  split; [reflexivity|].
  exact (proj1 (startAnalysis_resets_isAnalyzing Sample.state Sample.world
                  eq_refl)).
Defined.

(** X2: the values a run of [startAnalysis] passes to [setAnalysisProgress]
    only go up: they start at 0, strictly increase and always reach 100,
    whether or not the specification is enhanced on the way and whether or
    not the text service fails. *)
Theorem startAnalysis_progress (st : State) (w : World) :
  nothing_to_analyze st = false ->
  StronglySorted Z.lt (progress_values (Eff.trace (startAnalysis st w)))
  /\ hd_error (progress_values (Eff.trace (startAnalysis st w))) = Some 0
  /\ last (progress_values (Eff.trace (startAnalysis st w))) 0 = 100.
Proof.
  intros G. run_cases G; cbn [progress_values];
    (split; [repeat constructor|split; reflexivity]).
Qed.

Lemma startAnalysis_progress_witness :
  nothing_to_analyze Sample.state = false
  /\ progress_values (Eff.trace (startAnalysis Sample.state Sample.world))
     = [0; 20; 40; 60; 80; 85; 90; 95; 100]
  /\ StronglySorted Z.lt
       (progress_values (Eff.trace (startAnalysis Sample.state Sample.world))).
Proof.
  split; [reflexivity|]. split; [reflexivity|].
  exact (proj1 (startAnalysis_progress Sample.state Sample.world eq_refl)).
Defined.

(** X3: the result of a run does not hold the enhanced specification the
    same run obtains. When no enhanced specification exists at the start, the
    text the service returns is passed to [setEnhancedSpec], but the handler
    reads [enhancedSpec] from the render it was created in, so the result
    carries the placeholder text. *)
Theorem startAnalysis_result_misses_enhancement (st : State) (w : World)
    (text : jsstring) :
  nothing_to_analyze st = false ->
  enhancedSpec st = [] ->
  blink_ai_generateText w (enhance_prompt (originalSpec st)) 2000 = Some text ->
  enhanced_texts (Eff.trace (startAnalysis st w)) = [text]
  /\ map AnalysisResult.enhancedSpec
       (produced (Eff.trace (startAnalysis st w)))
     = [lit "Spec enhancement in progress..."].
Proof.
  intros G E A. rewrite (startAnalysis_produces st w G).
  split; [|cbn [map analysisResult AnalysisResult.enhancedSpec];
           now rewrite E].
  unfold startAnalysis, try_block, catch_block, finally_block, enhanceSpec,
    notify.
  rewrite G, (guard_spec_not_blank _ G), E, A.
  cbn [truthy negb].
  repeat match goal with
    | |- context [onNotification_prop ?w] =>
        destruct (onNotification_prop w) eqn:?
    | |- context [if ?c then _ else _] => destruct c eqn:?
    end;
  cbv beta iota zeta delta
    [Eff.bind Eff.emit emit Eff.ret Eff.throw Eff.trace Eff.outcome
     Eff.try_catch Eff.finally fst snd app]; reflexivity.
Qed.

Lemma startAnalysis_result_misses_enhancement_witness :
  enhanced_texts (Eff.trace (startAnalysis Sample.state Sample.world))
    = [lit "An enhanced specification"]
  /\ map AnalysisResult.enhancedSpec
       (produced (Eff.trace (startAnalysis Sample.state Sample.world)))
     = [lit "Spec enhancement in progress..."].
Proof.
  exact (startAnalysis_result_misses_enhancement Sample.state Sample.world
           (lit "An enhanced specification") eq_refl eq_refl eq_refl).
Defined.

(** X4: a run of [startAnalysis] calls the text service exactly when no
    enhanced specification exists yet, and then once, with the prompt built
    from the original specification and [maxTokens] 2000. *)
Theorem startAnalysis_service_calls (st : State) (w : World) :
  nothing_to_analyze st = false ->
  service_calls (Eff.trace (startAnalysis st w)) =
  if truthy (enhancedSpec st) then []
  else [(enhance_prompt (originalSpec st), 2000)].
Proof.
  intros G. destruct (truthy (enhancedSpec st)) eqn:E;
    unfold startAnalysis, try_block, catch_block, finally_block, enhanceSpec,
      notify;
    rewrite G, ?(guard_spec_not_blank _ G), E; cbn [negb];
    repeat match goal with
      | |- context [blink_ai_generateText ?w ?p ?n] =>
          destruct (blink_ai_generateText w p n) eqn:?
      | |- context [onNotification_prop ?w] =>
          destruct (onNotification_prop w) eqn:?
      | |- context [if ?c then _ else _] => destruct c eqn:?
      end;
    cbv beta iota zeta delta
      [Eff.bind Eff.emit emit Eff.ret Eff.throw Eff.trace Eff.outcome
       Eff.try_catch Eff.finally fst snd app]; reflexivity.
Qed.

Lemma startAnalysis_service_calls_witness :
  nothing_to_analyze Sample.state = false
  /\ service_calls (Eff.trace (startAnalysis Sample.state Sample.world))
     = [(enhance_prompt (originalSpec Sample.state), 2000)].
Proof.
  split; [reflexivity|].
  exact (startAnalysis_service_calls Sample.state Sample.world eq_refl).
Defined.


(** X8: the id of an analysis result is made from the clock alone: two runs
    get the same id exactly when they read the same millisecond from
    [Date.now()], whatever they analyse. *)
Theorem analysis_ids_collide_iff (st1 st2 : State) (w1 w2 : World) :
  nothing_to_analyze st1 = false ->
  nothing_to_analyze st2 = false ->
  map AnalysisResult.id (produced (Eff.trace (startAnalysis st1 w1)))
  = map AnalysisResult.id (produced (Eff.trace (startAnalysis st2 w2)))
  <-> Date_now w1 = Date_now w2.
Proof.
  intros G1 G2.
  rewrite (startAnalysis_produces st1 w1 G1), (startAnalysis_produces st2 w2 G2).
  cbn [map analysisResult AnalysisResult.id]. split.
  - intros H. injection H as H.
    now apply NumberFacts.number_toString_inj.
  - intros ->. reflexivity.
Qed.

Lemma analysis_ids_collide_iff_witness :
  nothing_to_analyze Sample.state = false
  /\ (map AnalysisResult.id
        (produced (Eff.trace (startAnalysis Sample.state Sample.world)))
      = map AnalysisResult.id
          (produced (Eff.trace (startAnalysis MoreSamples.failed_upload_state
                                  Sample.world)))
      <-> Date_now Sample.world = Date_now Sample.world).
Proof.
  split; [reflexivity|].
  exact (analysis_ids_collide_iff Sample.state
           MoreSamples.failed_upload_state Sample.world Sample.world
           eq_refl eq_refl).
Defined.

(** X9: when the notification callback is there and returns, a run past the
    guard ends normally and sends exactly one notification: the success
    message when [onAnalysisComplete] returned, the failure message when it
    threw. *)
Theorem startAnalysis_notifies_once (st : State) (w : World)
    (returns : Notification.t -> bool) :
  nothing_to_analyze st = false ->
  onNotification_prop w = Some returns ->
  (forall n, returns n = true) ->
  Eff.outcome (startAnalysis st w) = inl tt
  /\ map (fun n => (Notification.type n, Notification.title n))
       (notified (Eff.trace (startAnalysis st w)))
     = [ if onAnalysisComplete_returns w (analysisResult st w)
         then (success, lit "Analysis Complete!")
         else (error_notification, lit "Analysis Failed") ].
Proof.
  intros G P D.
  unfold startAnalysis, try_block, catch_block, finally_block, enhanceSpec,
    notify.
  rewrite G, (guard_spec_not_blank _ G), P, !D.
  repeat match goal with
    | |- context [blink_ai_generateText ?w ?p ?n] =>
        destruct (blink_ai_generateText w p n) eqn:?
    | |- context [if ?c then _ else _] => destruct c eqn:?
    end;
  cbv beta iota zeta delta
    [Eff.bind Eff.emit emit Eff.ret Eff.throw Eff.trace Eff.outcome
     Eff.try_catch Eff.finally fst snd app];
  split; reflexivity.
Qed.

Lemma startAnalysis_notifies_once_witness :
  nothing_to_analyze Sample.state = false
  /\ Eff.outcome (startAnalysis Sample.state MoreSamples.throwing_world)
     = inl tt
  /\ map (fun n => (Notification.type n, Notification.title n))
       (notified (Eff.trace
                    (startAnalysis Sample.state MoreSamples.throwing_world)))
     = [(error_notification, lit "Analysis Failed")].
Proof.
  split; [reflexivity|].
  exact (startAnalysis_notifies_once Sample.state MoreSamples.throwing_world
           (fun _ => true) eq_refl eq_refl (fun _ => eq_refl)).
Defined.

Lemma filter_none {A} (p : A -> bool) (l : list A) :
  Forall (fun a => p a = false) l -> filter p l = [].
Proof.
  induction 1 as [|a l Ha _ IH]; simpl; [reflexivity|]. now rewrite Ha.
Qed.

(** X10: the guard of [startAnalysis] counts the entries of the file list,
    not the uploads that succeeded. With a specification and a list in which
    no file has the status uploaded (all still uploading or failed) the
    analysis runs all the same: it hands over a result with no code, video
    or log file in it, and the same bugs and fixes as ever. *)
Theorem startAnalysis_without_usable_files (st : State) (w : World) :
  nothing_to_analyze st = false ->
  Forall (fun f => UploadedFile.status f <> uploaded) (uploadedFiles st) ->
  exists r,
    produced (Eff.trace (startAnalysis st w)) = [r]
    /\ AnalysisResult.files r
       = {| Files.code := []; Files.video := []; Files.logs := [] |}
    /\ AnalysisResult.bugs r = analysis_bugs
    /\ AnalysisResult.fixes r = analysis_fixes.
Proof.
  intros G H. exists (analysisResult st w).
  split; [now apply startAnalysis_produces|].
  split; [|split; reflexivity].
  cbn [analysisResult AnalysisResult.files].
  rewrite !filter_none; [reflexivity| | |];
    (eapply Forall_impl; [|exact H]); intros f Hf;
    unfold has_type_and_status; simpl in Hf;
    destruct (UploadedFile.status f); try (exfalso; apply Hf; reflexivity);
    apply andb_false_r.
Qed.

Lemma startAnalysis_without_usable_files_witness :
  nothing_to_analyze MoreSamples.failed_upload_state = false
  /\ exists r,
       produced (Eff.trace
                   (startAnalysis MoreSamples.failed_upload_state
                      Sample.world)) = [r]
       /\ AnalysisResult.files r
          = {| Files.code := []; Files.video := []; Files.logs := [] |}
       /\ AnalysisResult.bugs r = analysis_bugs
       /\ AnalysisResult.fixes r = analysis_fixes.
Proof.
  split; [reflexivity|].
  apply (startAnalysis_without_usable_files MoreSamples.failed_upload_state
           Sample.world); [reflexivity|].
  repeat constructor; discriminate.
Defined.

(** X11: [enhanceSpec] never throws. On a blank specification it does
    nothing at all. Otherwise it calls the text service once; when the
    service answers, the answer becomes the enhanced specification, the
    progress goes to 40 and nothing is written to the error console; when
    the service fails, the failure is logged, with one call of
    [console.error] labelled [Spec enhancement failed:], and swallowed,
    nothing is passed to [setEnhancedSpec] and the progress stays at 20. *)
Theorem enhanceSpec_swallows_failure (st : State) (w : World) :
  Eff.outcome (enhanceSpec st w) = inl tt
  /\ (truthy (trim (originalSpec st)) = false ->
      Eff.trace (enhanceSpec st w) = [])
  /\ (truthy (trim (originalSpec st)) = true ->
      service_calls (Eff.trace (enhanceSpec st w))
      = [(enhance_prompt (originalSpec st), 2000)]
      /\ enhanced_texts (Eff.trace (enhanceSpec st w))
         = match blink_ai_generateText w (enhance_prompt (originalSpec st))
                   2000 with
           | Some text => [text]
           | None => []
           end
      /\ progress_values (Eff.trace (enhanceSpec st w))
         = match blink_ai_generateText w (enhance_prompt (originalSpec st))
                   2000 with
           | Some _ => [20; 40]
           | None => [20]
           end
      /\ console_errors (Eff.trace (enhanceSpec st w))
         = match blink_ai_generateText w (enhance_prompt (originalSpec st))
                   2000 with
           | Some _ => []
           | None => [lit "Spec enhancement failed:"]
           end).
Proof.
  unfold enhanceSpec.
  destruct (truthy (trim (originalSpec st))); cbn [negb];
    [destruct (blink_ai_generateText w _ _)|];
    cbv beta iota zeta delta
      [Eff.bind Eff.emit emit Eff.ret Eff.throw Eff.trace Eff.outcome
       Eff.try_catch fst snd app];
    repeat split; try discriminate; reflexivity.
Qed.

End StartAnalysisFacts.

(** ** The list of uploaded files *)

Module FileUploadFacts.

Import FileUpload NumberFacts.

(** The index of the round can be read off the id of the file. *)
Lemma fileId_index ty ty' now now' i j :
  fileId ty now i = fileId ty' now' j -> i = j.
Proof.
  assert (E : forall ty now i,
             fileId ty now i
             = (type_name ty ++ lit "-" ++ number_toString now)
               ++ 45%N :: number_toString (Z.of_nat i)).
  { intros. unfold fileId. rewrite <- !app_assoc. reflexivity. }
  rewrite !E. intros H.
  apply suffix_after_separator in H; try apply index_no_minus.
  apply number_toString_inj in H. lia.
Qed.

Lemma uploadedFiles_after_app st a b :
  uploadedFiles_after st (a ++ b)
  = uploadedFiles_after (uploadedFiles_after st a) b.
Proof. apply fold_left_app. Qed.

Lemma mark_uploaded_untouched fid url st :
  ~ In fid (map UploadedFile.id st) -> mark_uploaded fid url st = st.
Proof.
  unfold mark_uploaded. induction st as [|f st IH]; simpl; intros H;
    [reflexivity|].
  destruct (JS.eqb (UploadedFile.id f) fid) eqn:E.
  - apply JSFacts.eqb_eq in E. tauto.
  - f_equal. apply IH. tauto.
Qed.

Lemma mark_error_untouched fid st :
  ~ In fid (map UploadedFile.id st) -> mark_error fid st = st.
Proof.
  unfold mark_error. induction st as [|f st IH]; simpl; intros H;
    [reflexivity|].
  destruct (JS.eqb (UploadedFile.id f) fid) eqn:E.
  - apply JSFacts.eqb_eq in E. tauto.
  - f_equal. apply IH. tauto.
Qed.

Lemma removeFile_untouched fid st :
  ~ In fid (map UploadedFile.id st) -> removeFile fid st = st.
Proof.
  unfold removeFile. induction st as [|f st IH]; simpl; intros H;
    [reflexivity|].
  destruct (JS.eqb (UploadedFile.id f) fid) eqn:E; simpl.
  - apply JSFacts.eqb_eq in E. tauto.
  - f_equal. apply IH. tauto.
Qed.

(** One round, when notifications are delivered and the new id is not in
    use: the file is appended in its settled state, and the round ends
    normally. *)
Lemma upload_one_settles w ty i file st :
  delivers w ->
  ~ In (fileId ty (Date_now w i) i) (map UploadedFile.id st) ->
  Eff.outcome (upload_one w ty i file) = inl tt
  /\ uploadedFiles_after st (Eff.trace (upload_one w ty i file))
     = st ++ [settled w ty i file].
Proof.
  intros D F. unfold delivers in D. unfold upload_one, settled, notify.
  destruct (blink_storage_upload w file _) as [url|];
    destruct (onNotification_prop w) as [returns|];
    rewrite ?D;
    cbv beta iota zeta delta
      [Eff.bind Eff.emit emit Eff.ret Eff.throw Eff.trace Eff.outcome
       Eff.try_catch fst snd];
    cbn [app]; unfold uploadedFiles_after; cbn [fold_left];
    (split; [reflexivity|]);
    unfold append_file, mark_uploaded, mark_error; rewrite map_app;
    cbn [map]; rewrite JSFacts.eqb_refl; f_equal;
    first [apply (mark_uploaded_untouched _ url _ F)
          |apply (mark_error_untouched _ _ F)].
Qed.

Lemma settled_id w ty i file :
  UploadedFile.id (settled w ty i file) = fileId ty (Date_now w i) i.
Proof. reflexivity. Qed.

Lemma upload_from_settles w ty files : forall i st,
  delivers w ->
  (forall k, (k < length files)%nat ->
     ~ In (fileId ty (Date_now w (i + k)) (i + k)) (map UploadedFile.id st)) ->
  Eff.outcome (upload_from w ty i files) = inl tt
  /\ uploadedFiles_after st (Eff.trace (upload_from w ty i files))
     = st ++ settled_from w ty i files.
Proof.
  induction files as [|file files IH]; intros i st D F; simpl.
  - split; [reflexivity|]. now rewrite app_nil_r.
  - assert (F0 : ~ In (fileId ty (Date_now w i) i) (map UploadedFile.id st)).
    { specialize (F 0%nat). rewrite Nat.add_0_r in F. apply F. simpl; lia. }
    destruct (upload_one_settles w ty i file st D F0) as [Ho Hs].
    rewrite EffFacts.outcome_bind, EffFacts.trace_bind, Ho.
    rewrite uploadedFiles_after_app, Hs.
    destruct (IH (S i) (st ++ [settled w ty i file]) D) as [Ho' Hs'].
    { intros k Hk. rewrite map_app, in_app_iff.
      change (map UploadedFile.id [settled w ty i file])
        with [fileId ty (Date_now w i) i].
      intros [H|[H|[]]].
      - apply (F (S k)); [simpl; lia|].
        now replace (i + S k)%nat with (S i + k)%nat by lia.
      - apply fileId_index in H. lia. }
    split; [exact Ho'|]. rewrite Hs', <- app_assoc. reflexivity.
Qed.

Lemma settled_from_not_uploading w ty files : forall i,
  Forall (fun f => UploadedFile.status f <> uploading)
    (settled_from w ty i files).
Proof.
  induction files as [|file files IH]; intros i; simpl; constructor; auto.
  simpl. destruct (blink_storage_upload w file _); discriminate.
Qed.

(** X5: when notifications are delivered and the ids of the new files are
    not in use, [handleFileUpload] ends normally and appends one entry per
    file of the list, in order, after the entries that were there; each new
    entry has settled: it is uploaded, with the public URL of the storage
    service, or in error; none is left uploading. A failed upload does not
    stop the files after it. *)
Theorem handleFileUpload_settles (w : World) (files : list File)
    (ty : FileType) (st : list UploadedFile.t) :
  delivers w ->
  (forall k, (k < length files)%nat ->
     ~ In (fileId ty (Date_now w k) k) (map UploadedFile.id st)) ->
  Eff.outcome (handleFileUpload w files ty) = inl tt
  /\ uploadedFiles_after st (Eff.trace (handleFileUpload w files ty))
     = st ++ settled_from w ty 0 files
  /\ Forall (fun f => UploadedFile.status f <> uploading)
       (settled_from w ty 0 files).
Proof.
  intros D F.
  destruct (upload_from_settles w ty files 0%nat st D F) as [Ho Hs].
  split; [exact Ho|]. split; [exact Hs|].
  apply settled_from_not_uploading.
Qed.

(** X7: uploading one file and then removing it by its id gives back the
    list of files as it was (the id not being in use before). *)
Theorem upload_then_remove (w : World) (file : File) (ty : FileType)
    (st : list UploadedFile.t) :
  delivers w ->
  ~ In (fileId ty (Date_now w 0%nat) 0) (map UploadedFile.id st) ->
  removeFile (fileId ty (Date_now w 0%nat) 0)
    (uploadedFiles_after st (Eff.trace (handleFileUpload w [file] ty)))
  = st.
Proof.
  intros D F.
  destruct (upload_from_settles w ty [file] 0%nat st D) as [_ Hs].
  { intros k Hk. simpl in Hk. now replace k with 0%nat by lia. }
  change (handleFileUpload w [file] ty) with (upload_from w ty 0 [file]).
  rewrite Hs. unfold removeFile. rewrite filter_app. simpl.
  rewrite JSFacts.eqb_refl. simpl. rewrite app_nil_r.
  now apply removeFile_untouched.
Qed.


Lemma mark_uploaded_keys fid url l :
  map key (mark_uploaded fid url l) = map key l.
Proof.
  unfold mark_uploaded. rewrite map_map. apply map_ext.
  intros f. destruct (JS.eqb _ _); reflexivity.
Qed.

Lemma mark_error_keys fid l : map key (mark_error fid l) = map key l.
Proof.
  unfold mark_error. rewrite map_map. apply map_ext.
  intros f. destruct (JS.eqb _ _); reflexivity.
Qed.

Lemma map_keys (g : UploadedFile.t -> UploadedFile.t) l :
  (forall f, key (g f) = key f) -> map key (map g l) = map key l.
Proof. intros H. rewrite map_map. now apply map_ext. Qed.

(** One round, whatever happens: the entries that were there keep their
    place and their keys, and exactly one entry is appended. *)
Lemma upload_one_frame w ty i file st :
  exists l e,
    uploadedFiles_after st (Eff.trace (upload_one w ty i file)) = l ++ [e]
    /\ map key l = map key st.
Proof.
  unfold upload_one, notify.
  destruct (blink_storage_upload w file _) as [url|];
    destruct (onNotification_prop w) as [returns|];
    repeat match goal with
      | |- context [if ?c then _ else _] => destruct c
      end;
    cbv beta iota zeta delta
      [Eff.bind Eff.emit emit Eff.ret Eff.throw Eff.trace Eff.outcome
       Eff.try_catch fst snd];
    cbn [app]; unfold uploadedFiles_after; cbn [fold_left];
    unfold append_file, mark_uploaded, mark_error;
    rewrite ?map_app; cbn [map];
    (eexists; eexists; split; [reflexivity|]);
    repeat (rewrite map_keys;
            [|intros f; destruct (JS.eqb _ _); reflexivity]);
    reflexivity.
Qed.

Lemma upload_from_frame w ty files : forall i st,
  exists l added,
    uploadedFiles_after st (Eff.trace (upload_from w ty i files))
    = l ++ added
    /\ map key l = map key st
    /\ (length added <= length files)%nat
    /\ (Eff.outcome (upload_from w ty i files) = inl tt ->
        length added = length files).
Proof.
  induction files as [|file files IH]; intros i st; simpl.
  - exists st, []. rewrite app_nil_r. repeat split; auto.
  - rewrite EffFacts.trace_bind, EffFacts.outcome_bind,
      uploadedFiles_after_app.
    destruct (upload_one_frame w ty i file st) as (l & e & Hs & Hk).
    rewrite Hs.
    destruct (Eff.outcome (upload_one w ty i file)) as [[]|x].
    + destruct (IH (S i) (l ++ [e])) as (l' & added & Hs' & Hk' & Hl & Ho).
      rewrite Hs'.
      rewrite map_app in Hk'.
      exists (firstn (length l) l'), (skipn (length l) l' ++ added).
      assert (Hlen : length l' = S (length l)).
      { apply (f_equal (@length _)) in Hk'.
        rewrite length_app, !length_map in Hk'. simpl in Hk'. lia. }
      split; [now rewrite app_assoc, firstn_skipn|].
      split.
      { rewrite <- Hk. rewrite <- firstn_map, Hk'.
        rewrite <- (length_map key l), firstn_app, firstn_all, Nat.sub_diag.
        simpl. now rewrite app_nil_r. }
      rewrite length_app, length_skipn, Hlen.
      split; [lia|]. intros H. specialize (Ho H). lia.
    + simpl. exists l, [e].
      repeat split; auto; simpl; try lia. discriminate.
Qed.

(** X6: whatever the storage service and the notification callback do,
    [handleFileUpload] never removes or reorders an entry and never changes
    the id, name, type or size of one: the list afterwards is the old
    entries, up to status and URL, followed by at most one new entry per
    file, and exactly one per file when the handler ends normally. *)
Theorem handleFileUpload_frame (w : World) (files : list File)
    (ty : FileType) (st : list UploadedFile.t) :
  exists kept added,
    uploadedFiles_after st (Eff.trace (handleFileUpload w files ty))
    = kept ++ added
    /\ map key kept = map key st
    /\ (length added <= length files)%nat
    /\ (Eff.outcome (handleFileUpload w files ty) = inl tt ->
        length added = length files).
Proof. apply upload_from_frame. Qed.


Lemma handleFileUpload_settles_witness :
  delivers MoreSamples.upload_world
  /\ map (fun f => (UploadedFile.name f, UploadedFile.status f))
       (uploadedFiles_after []
          (Eff.trace (handleFileUpload MoreSamples.upload_world
                        MoreSamples.files code)))
     = [(lit "App.tsx", uploaded); (lit "big.mp4", error)].
Proof.
  assert (D : delivers MoreSamples.upload_world) by (intros n; reflexivity).
  split; [exact D|].
  destruct (handleFileUpload_settles MoreSamples.upload_world
              MoreSamples.files code [] D (fun k _ H => H)) as (_ & Hs & _).
  rewrite Hs. reflexivity.
Defined.

Lemma upload_then_remove_witness :
  delivers MoreSamples.upload_world
  /\ removeFile (fileId video (Date_now MoreSamples.upload_world 0%nat) 0)
       (uploadedFiles_after (ProjectUpload.uploadedFiles Sample.state)
          (Eff.trace
             (handleFileUpload MoreSamples.upload_world
                [nth 1 MoreSamples.files
                   {| name := []; size := 0 |}] video)))
     = ProjectUpload.uploadedFiles Sample.state.
Proof.
  assert (D : delivers MoreSamples.upload_world) by (intros n; reflexivity).
  split; [exact D|].
  apply (upload_then_remove MoreSamples.upload_world _ video _ D).
  simpl. intros [H|[]]. vm_compute in H. discriminate H.
Defined.

End FileUploadFacts.

(* ================================================================= *)
(** ** More on the dashboard and its viewer *)

Module DashboardHandlerFacts.

Import Dashboard DashboardFrame.

Lemma with_status_back (f : Fix.t) (s : FixStatus) :
  Fix.with_status (Fix.with_status f s) (Fix.status f) = f.
Proof. destruct f; reflexivity. Qed.

Lemma with_status_same (f : Fix.t) : Fix.with_status f (Fix.status f) = f.
Proof. destruct f; reflexivity. Qed.

Lemma with_fixes_same (r : AnalysisResult.t) :
  AnalysisResult.with_fixes r (AnalysisResult.fixes r) = r.
Proof. destruct r; reflexivity. Qed.

Lemma mark_same_but_status fixId s l :
  Forall2 same_but_status l (mark fixId s l).
Proof.
  induction l as [|f l IH]; simpl; constructor; auto.
  unfold same_but_status.
  destruct (JS.eqb (Fix.id f) fixId);
    [apply with_status_back|apply with_status_same].
Qed.

(** What the handlers leave in [analysisData] when there is an analysis. *)
Lemma after_handleApplyFix data returns fixId :
  after (Some data) (Eff.trace (handleApplyFix (Some data) returns fixId))
  = Some (AnalysisResult.with_fixes data
            (mark fixId applied (AnalysisResult.fixes data))).
Proof.
  unfold handleApplyFix, notify.
  repeat match goal with
    | |- context [if ?c then _ else _] => destruct c
    end; reflexivity.
Qed.

Lemma after_handleRejectFix data returns fixId :
  after (Some data) (Eff.trace (handleRejectFix (Some data) returns fixId))
  = Some (AnalysisResult.with_fixes data
            (mark fixId rejected (AnalysisResult.fixes data))).
Proof.
  unfold handleRejectFix, notify.
  repeat match goal with
    | |- context [if ?c then _ else _] => destruct c
    end; reflexivity.
Qed.

(** X12: with an analysis result at hand, [handleApplyFix] and
    [handleRejectFix] leave a result that differs from it in the status of
    fixes at most: id, timestamp, specifications, files and bugs are kept,
    and so are the fixes, one for one and in their order, in every field but
    the status. This holds also when the notification call throws. *)
Theorem handlers_change_status_only (data : AnalysisResult.t)
    (returns : Notification.t -> bool) (fixId : jsstring) :
  (exists data',
     after (Some data) (Eff.trace (handleApplyFix (Some data) returns fixId))
     = Some data'
     /\ same_but_statuses data data')
  /\ (exists data',
        after (Some data)
          (Eff.trace (handleRejectFix (Some data) returns fixId))
        = Some data'
        /\ same_but_statuses data data').
Proof.
  split; eexists;
    (split; [first [apply after_handleApplyFix|apply after_handleRejectFix]|]);
    repeat split; apply mark_same_but_status.
Qed.

Lemma mark_mark fixId s1 s2 l :
  mark fixId s2 (mark fixId s1 l) = mark fixId s2 l.
Proof.
  unfold mark. rewrite map_map. apply map_ext. intros f.
  destruct (JS.eqb (Fix.id f) fixId) eqn:E; simpl; rewrite E;
    [destruct f|]; reflexivity.
Qed.

Lemma mark_comm id1 id2 s1 s2 l :
  id1 <> id2 ->
  mark id2 s2 (mark id1 s1 l) = mark id1 s1 (mark id2 s2 l).
Proof.
  intros N. unfold mark. rewrite !map_map. apply map_ext. intros f.
  destruct (JS.eqb (Fix.id f) id1) eqn:E1, (JS.eqb (Fix.id f) id2) eqn:E2;
    simpl; rewrite ?E1, ?E2; try reflexivity.
  apply JSFacts.eqb_eq in E1, E2. congruence.
Qed.

(** X13: each handler overwrites the status, whatever it was. Rejecting a
    fix after applying it leaves what rejecting alone leaves, and applying
    after rejecting what applying alone leaves: the last call decides. Calls
    for two different ids do not interfere, in either order. *)
Theorem handlers_last_call_wins (analysisData : option AnalysisResult.t)
    (returns : Notification.t -> bool) (id1 id2 : jsstring) :
  let apply_then ad fixId :=
    after ad (Eff.trace (handleApplyFix ad returns fixId)) in
  let reject_then ad fixId :=
    after ad (Eff.trace (handleRejectFix ad returns fixId)) in
  fixes_prop (reject_then (apply_then analysisData id1) id1)
    = fixes_prop (reject_then analysisData id1)
  /\ fixes_prop (apply_then (reject_then analysisData id1) id1)
     = fixes_prop (apply_then analysisData id1)
  /\ (id1 <> id2 ->
      fixes_prop (reject_then (apply_then analysisData id1) id2)
      = fixes_prop (apply_then (reject_then analysisData id2) id1)).
Proof.
  cbv beta zeta.
  repeat (rewrite DashboardFacts.fixes_after_handleApplyFix
          || rewrite DashboardFacts.fixes_after_handleRejectFix).
  split; [apply mark_mark|]. split; [apply mark_mark|].
  intros N. now apply mark_comm.
Qed.

(** X14: before any analysis the viewer shows its sample fixes, with the
    buttons for a pending one; pressing a button then changes nothing. The
    handler only logs: there is still no analysis result, no notification
    is sent, and the viewer keeps offering the same button. *)
Theorem sample_fixes_stay_pending (returns : Notification.t -> bool)
    (selected : option jsstring) (fixId : jsstring) (t : list Effect) :
  CodeDiffViewer.actions (fixes_prop None) selected = Some fixId ->
  t = Eff.trace (handleApplyFix None returns fixId)
  \/ t = Eff.trace (handleRejectFix None returns fixId) ->
  after None t = None
  /\ notified t = []
  /\ CodeDiffViewer.actions (fixes_prop (after None t)) selected
     = Some fixId.
Proof.
  intros H [-> | ->]; repeat split; exact H.
Qed.

Lemma sample_fixes_stay_pending_witness :
  CodeDiffViewer.actions (fixes_prop None) (Some (lit "fix-1"))
    = Some (lit "fix-1")
  /\ after None
       (Eff.trace (handleApplyFix None (fun _ => true) (lit "fix-1")))
     = None.
Proof.
  split; [reflexivity|].
  apply (sample_fixes_stay_pending (fun _ => true) (Some (lit "fix-1"))
           (lit "fix-1")
           (Eff.trace (handleApplyFix None (fun _ => true) (lit "fix-1"))));
    [reflexivity|left; reflexivity].
Defined.

Lemma mark_unknown fixId s l :
  ~ In fixId (map Fix.id l) -> mark fixId s l = l.
Proof.
  induction l as [|f l IH]; simpl; intros H; [reflexivity|].
  destruct (JS.eqb (Fix.id f) fixId) eqn:E.
  - apply JSFacts.eqb_eq in E. tauto.
  - f_equal. apply IH. tauto.
Qed.

(** X15: [handleApplyFix] does not look for the fix. Called with an id that
    no fix of the result has, it leaves the result as it is and still
    reports that the fix was applied. *)
Theorem handleApplyFix_unknown_id (data : AnalysisResult.t)
    (returns : Notification.t -> bool) (fixId : jsstring) :
  ~ In fixId (map Fix.id (AnalysisResult.fixes data)) ->
  (forall n, returns n = true) ->
  after (Some data) (Eff.trace (handleApplyFix (Some data) returns fixId))
  = Some data
  /\ map (fun n => (Notification.type n, Notification.title n))
       (notified (Eff.trace (handleApplyFix (Some data) returns fixId)))
     = [(success, lit "Fix Applied Successfully")].
Proof.
  intros H D. split.
  - rewrite after_handleApplyFix, (mark_unknown _ _ _ H).
    now rewrite with_fixes_same.
  - unfold handleApplyFix, notify. rewrite D. reflexivity.
Qed.

Lemma handleApplyFix_unknown_id_witness :
  after (Some (ProjectUpload.analysisResult Sample.state Sample.world))
    (Eff.trace
       (handleApplyFix
          (Some (ProjectUpload.analysisResult Sample.state Sample.world))
          (fun _ => true) (lit "fix-3")))
  = Some (ProjectUpload.analysisResult Sample.state Sample.world)
  /\ map (fun n => (Notification.type n, Notification.title n))
       (notified
          (Eff.trace
             (handleApplyFix
                (Some (ProjectUpload.analysisResult Sample.state Sample.world))
                (fun _ => true) (lit "fix-3"))))
     = [(success, lit "Fix Applied Successfully")].
Proof.
  apply (handleApplyFix_unknown_id
           (ProjectUpload.analysisResult Sample.state Sample.world)
           (fun _ => true) (lit "fix-3")); [|reflexivity].
  simpl. intros [H|[H|[]]]; vm_compute in H; discriminate H.
Defined.

(** X16: [handleApplyFix] stores the new status before it notifies. When the
    success notification throws, the fix is marked as applied all the same,
    and the [catch] block then reports that applying it failed. *)
Theorem handleApplyFix_marks_before_notifying (data : AnalysisResult.t)
    (returns : Notification.t -> bool) (fixId : jsstring) :
  (forall n, Notification.type n = success -> returns n = false) ->
  fixes_prop
    (after (Some data) (Eff.trace (handleApplyFix (Some data) returns fixId)))
  = mark fixId applied (AnalysisResult.fixes data)
  /\ map (fun n => (Notification.type n, Notification.title n))
       (notified (Eff.trace (handleApplyFix (Some data) returns fixId)))
     = [(success, lit "Fix Applied Successfully");
        (error_notification, lit "Failed to Apply Fix")].
Proof.
  intros D. split.
  - now rewrite after_handleApplyFix.
  - unfold handleApplyFix, notify. rewrite D by reflexivity.
    cbv beta iota zeta delta
      [Eff.bind Eff.emit Eff.ret Eff.throw Eff.trace Eff.outcome
       Eff.try_catch fst snd app].
    destruct (returns _); reflexivity.
Qed.

Lemma handleApplyFix_marks_before_notifying_witness :
  let returns := fun n =>
    match Notification.type n with success => false | _ => true end in
  let data := ProjectUpload.analysisResult Sample.state Sample.world in
  map Fix.status
    (fixes_prop
       (after (Some data)
          (Eff.trace (handleApplyFix (Some data) returns (lit "fix-1")))))
  = [applied; pending]
  /\ map Notification.type
       (notified
          (Eff.trace (handleApplyFix (Some data) returns (lit "fix-1"))))
     = [success; error_notification].
Proof.
  cbv zeta.
  destruct (handleApplyFix_marks_before_notifying
              (ProjectUpload.analysisResult Sample.state Sample.world)
              (fun n =>
                 match Notification.type n with
                 | success => false
                 | _ => true
                 end)
              (lit "fix-1")) as [H1 H2].
  - intros n E. rewrite E. reflexivity.
  - split.
    + rewrite H1. reflexivity.
    + apply (f_equal (map fst)) in H2. rewrite map_map in H2. exact H2.
Defined.

End DashboardHandlerFacts.

Module StatsFacts.

Import Dashboard CodeDiffViewerStats.

Lemma with_status_sum (l : list Fix.t) :
  with_status pending l + with_status applied l + with_status rejected l
  = Z.of_nat (length l).
Proof.
  unfold with_status. induction l as [|f l IH]; [reflexivity|].
  cbn [filter]. destruct (Fix.status f); cbn [FixStatus_eqb length]; lia.
Qed.

(** X17: the counters of the viewer add up: pending, applied and rejected
    together are the total, for any list of fixes; and the total is never
    zero, since the sample fixes are shown for an empty list. *)
Theorem stats_add_up (fixes : list Fix.t) :
  pending_count (stats fixes) + applied_count (stats fixes)
  + rejected_count (stats fixes) = total (stats fixes)
  /\ 0 < total (stats fixes).
Proof.
  split; [apply with_status_sum|].
  unfold stats, CodeDiffViewer.displayFixes. cbn [total].
  destruct (Z.of_nat (length fixes) >? 0) eqn:E.
  - now apply Z.gtb_lt.
  - reflexivity.
Qed.

(** Marking the one fix of an id, which is pending, moves one count. *)
Lemma with_status_mark (l : list Fix.t) (f : Fix.t) (s : FixStatus) :
  NoDup (map Fix.id l) -> In f l -> Fix.status f = pending ->
  s <> pending ->
  with_status pending (mark (Fix.id f) s l) = with_status pending l - 1
  /\ with_status s (mark (Fix.id f) s l) = with_status s l + 1
  /\ forall s', s' <> pending -> s' <> s ->
       with_status s' (mark (Fix.id f) s l) = with_status s' l.
Proof.
  intros ND Hin Hp Hs. induction l as [|g l IH]; [contradiction|].
  inversion ND as [|? ? Hn ND']; subst.
  assert (Hcons : forall s0 (h : Fix.t) (k : list Fix.t),
             with_status s0 (h :: k)
             = (if FixStatus_eqb (Fix.status h) s0 then 1 else 0)
               + with_status s0 k).
  { intros s0 h k. unfold with_status. cbn [filter].
    destruct (FixStatus_eqb (Fix.status h) s0); cbn [length]; lia. }
  simpl mark. destruct Hin as [->|Hin].
  - rewrite JSFacts.eqb_refl.
    rewrite (DashboardHandlerFacts.mark_unknown _ _ _ Hn).
    rewrite !Hcons. cbn [Fix.with_status Fix.status]. rewrite Hp.
    repeat split.
    + destruct s; cbn [FixStatus_eqb]; first [lia|now exfalso; apply Hs].
    + destruct s; cbn [FixStatus_eqb]; first [lia|now exfalso; apply Hs].
    + intros s' H1 H2. rewrite !Hcons. cbn [Fix.with_status Fix.status].
      rewrite Hp.
      destruct s, s'; cbn [FixStatus_eqb];
        first [lia|now exfalso; apply Hs|now exfalso; apply H1
              |now exfalso; apply H2].
  - destruct (JS.eqb (Fix.id g) (Fix.id f)) eqn:E.
    { apply JSFacts.eqb_eq in E. exfalso. apply Hn. rewrite E.
      now apply in_map. }
    destruct (IH ND' Hin) as (H1 & H2 & H3).
    rewrite !Hcons, H1, H2. repeat split; try lia.
    intros s' N1 N2. rewrite !Hcons, (H3 s' N1 N2). reflexivity.
Qed.

Lemma actions_found fixes sel fixId :
  fixes <> [] ->
  CodeDiffViewer.actions fixes sel = Some fixId ->
  exists f, In f fixes /\ Fix.id f = fixId /\ Fix.status f = pending.
Proof.
  intros Hne H.
  unfold CodeDiffViewer.actions, CodeDiffViewer.selectedFixData in H.
  destruct sel as [sel|]; [|discriminate].
  destruct (find _ _) as [g|] eqn:Hfind; [|discriminate].
  destruct (FixStatus_eqb (Fix.status g) pending) eqn:Hst; [|discriminate].
  injection H as <-.
  apply find_some in Hfind as [Hg _].
  unfold CodeDiffViewer.displayFixes in Hg.
  destruct fixes as [|f0 l]; [contradiction|].
  replace (Z.of_nat (length (f0 :: l)) >? 0) with true in Hg
    by (symmetry; apply Z.gtb_lt; simpl length; lia).
  exists g. repeat split; [assumption|].
  destruct (Fix.status g); simpl in Hst; congruence.
Qed.

Lemma displayFixes_mark fixId s fixes :
  fixes <> [] ->
  CodeDiffViewer.displayFixes (mark fixId s fixes) = mark fixId s fixes
  /\ CodeDiffViewer.displayFixes fixes = fixes.
Proof.
  intros H. unfold CodeDiffViewer.displayFixes.
  destruct fixes as [|f l]; [contradiction|]. simpl mark.
  split; (replace (Z.of_nat (length _) >? 0) with true;
          [reflexivity|symmetry; apply Z.gtb_lt; simpl length; lia]).
Qed.

(** X18: in a state the dashboard reaches, with the fixes of an analysis on
    display, the button of the viewer moves exactly one fix: applying takes
    one off the pending count and adds one to the applied count, rejecting
    takes one off the pending count and adds one to the rejected count, and
    the third counter stays. *)
Theorem apply_moves_one_counter (ui : UI) (fixId : jsstring)
    (returns : Notification.t -> bool) :
  reachable ui ->
  fixes_prop (analysisData ui) <> [] ->
  CodeDiffViewer.actions (fixes_prop (analysisData ui)) (selectedFix ui)
    = Some fixId ->
  let before := stats (fixes_prop (analysisData ui)) in
  let applied_after :=
    stats (fixes_prop
             (after (analysisData ui)
                (Eff.trace (handleApplyFix (analysisData ui) returns fixId))))
  in
  let rejected_after :=
    stats (fixes_prop
             (after (analysisData ui)
                (Eff.trace (handleRejectFix (analysisData ui) returns fixId))))
  in
  (pending_count applied_after = pending_count before - 1
   /\ applied_count applied_after = applied_count before + 1
   /\ rejected_count applied_after = rejected_count before)
  /\ (pending_count rejected_after = pending_count before - 1
      /\ rejected_count rejected_after = rejected_count before + 1
      /\ applied_count rejected_after = applied_count before).
Proof.
  intros R Hne H. cbv zeta.
  rewrite DashboardFacts.fixes_after_handleApplyFix,
    DashboardFacts.fixes_after_handleRejectFix.
  destruct (actions_found _ _ _ Hne H) as (f & Hin & <- & Hp).
  pose proof (DashboardFacts.reachable_NoDup ui R) as ND.
  unfold stats.
  destruct (displayFixes_mark (Fix.id f) applied _ Hne) as [-> E].
  destruct (displayFixes_mark (Fix.id f) rejected _ Hne) as [-> _].
  rewrite E.
  cbn [pending_count applied_count rejected_count].
  destruct (with_status_mark _ f applied ND Hin Hp) as (A1 & A2 & A3);
    [discriminate|].
  destruct (with_status_mark _ f rejected ND Hin Hp) as (B1 & B2 & B3);
    [discriminate|].
  repeat split; auto; [apply A3|apply B3]; discriminate.
Qed.

Lemma apply_moves_one_counter_witness :
  reachable Sample.first_selected
  /\ pending_count
       (stats (fixes_prop (analysisData Sample.first_applied))) = 1
  /\ applied_count
       (stats (fixes_prop (analysisData Sample.first_applied))) = 1.
Proof.
  assert (R : reachable Sample.first_selected).
  { apply (reachable_viewer Sample.after_analysis);
      [exact DashboardFacts.sample_reachable|].
    apply (click_entry Sample.after_analysis ProjectUpload.fix_1).
    left; reflexivity. }
  split; [exact R|].
  destruct (apply_moves_one_counter Sample.first_selected (lit "fix-1")
              (fun _ => true) R) as [(H1 & H2 & _) _];
    [discriminate|reflexivity|].
  split; [exact H1|exact H2].
Defined.

End StatsFacts.

(* ================================================================= *)
(** ** The list of bug reports: filter and export *)

Module BugReportsFacts.

Import BugReports.

Lemma filter_twice {A} (p q : A -> bool) (l : list A) :
  filter q (filter p l) = filter (fun a => p a && q a) l.
Proof.
  induction l as [|a l IH]; simpl; [reflexivity|].
  destruct (p a); simpl; [destruct (q a)|]; now rewrite IH.
Qed.

Lemma filter_true {A} (l : list A) : filter (fun _ => true) l = l.
Proof. induction l as [|a l IH]; simpl; now rewrite ?IH. Qed.

Lemma filter_if {A} (b : bool) (p : A -> bool) (l : list A) :
  (if b then filter p l else l) = filter (fun a => negb b || p a) l.
Proof. destruct b; simpl; [reflexivity|now rewrite filter_true]. Qed.

Lemma filter_nothing {A} (p : A -> bool) (l : list A) :
  (forall a, p a = false) -> filter p l = [].
Proof.
  intros H. induction l as [|a l IH]; simpl; [reflexivity|].
  now rewrite H.
Qed.

(** A character of [String(n)] is a minus sign or a digit. *)
Lemma string_of_uint_chars (d : Decimal.uint) (c : N) :
  In c (lit (NilEmpty.string_of_uint d)) -> (48 <= c <= 57)%N.
Proof.
  induction d; simpl NilEmpty.string_of_uint; rewrite ?NumberFacts.lit_cons;
    simpl; intros H; try contradiction;
    (destruct H as [H|H]; [subst c; lia | auto]).
Qed.

Lemma number_toString_chars (z : Z) (c : N) :
  In c (number_toString z) -> c = 45%N \/ (48 <= c <= 57)%N.
Proof.
  unfold number_toString. destruct z as [|p|p]; simpl Z.to_int.
  - simpl. intros [H|[]]. subst c. right. lia.
  - simpl NilZero.string_of_int. unfold NilZero.string_of_uint.
    destruct (Pos.to_uint p) eqn:Ep;
      try (rewrite <- Ep; intros H; right;
           now apply string_of_uint_chars in H).
    simpl. intros [H|[]]. subst c. right. lia.
  - simpl NilZero.string_of_int. rewrite NumberFacts.lit_cons.
    intros [H|H]; [now left|]. right. revert H.
    unfold NilZero.string_of_uint.
    destruct (Pos.to_uint p) eqn:Ep;
      try (rewrite <- Ep; apply string_of_uint_chars).
    simpl. intros [H|[]]. subst c. lia.
Qed.

(** The occurrences of a character in the cells of a row. *)
Lemma count_join_separator (c : N) (cells : list jsstring) :
  count_occ N.eq_dec (join [c] cells) c
  = (pred (length cells)
     + list_sum (map (fun cell => count_occ N.eq_dec cell c) cells))%nat.
Proof.
  induction cells as [|cell cells IH]; [reflexivity|].
  destruct cells as [|cell' cells].
  - simpl. lia.
  - change (join [c] (cell :: cell' :: cells))
      with (cell ++ [c] ++ join [c] (cell' :: cells)).
    rewrite !count_occ_app, IH. rewrite count_occ_cons_eq by reflexivity.
    cbn [count_occ length pred map list_sum fold_right]. lia.
Qed.

Lemma count_join_other (c d : N) (cells : list jsstring) :
  d <> c ->
  count_occ N.eq_dec (join [c] cells) d
  = list_sum (map (fun cell => count_occ N.eq_dec cell d) cells).
Proof.
  intros Hd. induction cells as [|cell cells IH]; [reflexivity|].
  destruct cells as [|cell' cells].
  - simpl. lia.
  - change (join [c] (cell :: cell' :: cells))
      with (cell ++ [c] ++ join [c] (cell' :: cells)).
    rewrite !count_occ_app, IH.
    rewrite count_occ_cons_neq by (intros E; now apply Hd).
    cbn [count_occ length pred map list_sum fold_right]. lia.
Qed.

Lemma count_number_toString (z : Z) (c : N) :
  c <> 45%N -> (c < 48 \/ 57 < c)%N ->
  count_occ N.eq_dec (number_toString z) c = 0%nat.
Proof.
  intros H1 H2. apply count_occ_not_In. intros H.
  apply number_toString_chars in H. lia.
Qed.

Lemma count_severity_name s c :
  (c < 97)%N -> count_occ N.eq_dec (severity_name s) c = 0%nat.
Proof.
  intros H. apply count_occ_not_In. destruct s; simpl; intuition lia.
Qed.

Lemma count_status_name s c :
  (c < 45)%N -> count_occ N.eq_dec (status_name s) c = 0%nat.
Proof.
  intros H. apply count_occ_not_In. destruct s; simpl; intuition lia.
Qed.

Section Locale.

Variable toLowerCase : jsstring -> jsstring.
Variable toLocaleDateString : jsstring -> jsstring.

Lemma filterReports_filter (reports : list BugReport)
    (searchTerm severityFilter statusFilter : jsstring) :
  filterReports toLowerCase reports searchTerm severityFilter statusFilter
  = filter
      (fun report =>
         (negb (truthy searchTerm)
          || matches_search toLowerCase searchTerm report)
         && (negb (negb (JS.eqb severityFilter (lit "all")))
             || JS.eqb (severity_name (severity report)) severityFilter)
         && (negb (negb (JS.eqb statusFilter (lit "all")))
             || JS.eqb (status_name (status report)) statusFilter))
      reports.
Proof.
  unfold filterReports. cbv zeta.
  rewrite (filter_if (truthy searchTerm)).
  rewrite (filter_if (negb (JS.eqb severityFilter (lit "all")))).
  rewrite (filter_if (negb (JS.eqb statusFilter (lit "all")))).
  rewrite !filter_twice. apply filter_ext. intros r.
  now rewrite andb_assoc.
Qed.

(** X19: [filterReports] keeps reports and their order, and its three
    filters are independent. What is shown is the list of reports with
    those taken out that fail a filter that is switched on, the others
    staying in the order they had: a report is kept when the search term is
    empty or occurs in its title, description, file or project name, the
    severity selection is [all] or its severity, and the status selection is
    [all] or its status. Filtering what is shown again with the same
    settings changes nothing; applying the status filter, the severity
    filter and the search one at a time, in the reverse order, shows the
    same list; with an empty search and both selections on [all] every
    report is shown; and nothing is shown that is not among the reports. *)
Theorem filterReports_composes (reports : list BugReport)
    (searchTerm severityFilter statusFilter : jsstring) :
  let shown :=
    filterReports toLowerCase reports searchTerm severityFilter statusFilter
  in
  shown
  = filter
      (fun report =>
         (negb (truthy searchTerm)
          || matches_search toLowerCase searchTerm report)
         && (JS.eqb severityFilter (lit "all")
             || JS.eqb (severity_name (severity report)) severityFilter)
         && (JS.eqb statusFilter (lit "all")
             || JS.eqb (status_name (status report)) statusFilter))
      reports
  /\ filterReports toLowerCase shown searchTerm severityFilter statusFilter
     = shown
  /\ filterReports toLowerCase
       (filterReports toLowerCase
          (filterReports toLowerCase reports [] (lit "all") statusFilter)
          [] severityFilter (lit "all"))
       searchTerm (lit "all") (lit "all")
     = shown
  /\ filterReports toLowerCase reports [] (lit "all") (lit "all") = reports
  /\ (forall report, In report shown -> In report reports)
  /\ (length shown <= length reports)%nat.
Proof.
  cbv zeta. split.
  { rewrite filterReports_filter. apply filter_ext. intros r.
    now rewrite !negb_involutive. }
  rewrite !filterReports_filter.
  change (JS.eqb (lit "all") (lit "all")) with true.
  change (truthy []) with false. cbn [negb orb andb].
  split; [|split; [|split; [|split]]].
  - rewrite filter_twice. apply filter_ext. intros r.
    apply andb_diag.
  - rewrite !filter_twice. apply filter_ext. intros r.
    rewrite !andb_true_r.
    destruct (negb (truthy searchTerm) || _), (negb (negb (JS.eqb severityFilter _)) || _),
      (negb (negb (JS.eqb statusFilter _)) || _); reflexivity.
  - apply filter_true.
  - intros r H. now apply filter_In in H.
  - apply filter_length_le.
Qed.

(** X20: a severity filter other than [all] that is none of the three
    severities a report can have shows no report, whatever the search term
    and the status filter are. *)
Theorem filterReports_unknown_severity (reports : list BugReport)
    (searchTerm severityFilter statusFilter : jsstring) :
  severityFilter <> lit "all" ->
  severityFilter <> lit "high" ->
  severityFilter <> lit "medium" ->
  severityFilter <> lit "low" ->
  filterReports toLowerCase reports searchTerm severityFilter statusFilter
  = [].
Proof.
  intros Ha Hh Hm Hl. rewrite filterReports_filter.
  apply filter_nothing. intros r.
  apply JSFacts.eqb_neq in Ha. rewrite Ha. cbn [negb orb].
  replace (JS.eqb (severity_name (severity r)) severityFilter) with false.
  - now rewrite andb_false_r.
  - symmetry. apply JSFacts.eqb_neq.
    destruct (severity r); simpl; congruence.
Qed.

(** X21: the export writes the cells as they are, with no quoting. The
    header line has 7 commas; the line of a report has 7 commas and those of
    its id, title, file, project name and date on top, so a comma in one of
    these adds a column to its line. *)
Theorem csv_row_commas (report : BugReport) :
  let commas := fun cell => count_occ N.eq_dec cell 44%N in
  commas (join (lit ",") csv_header) = 7%nat
  /\ commas (join (lit ",") (csv_row toLocaleDateString report))
     = (7 + commas (id report) + commas (title report)
        + commas (file report) + commas (projectName report)
        + commas (toLocaleDateString (createdAt report)))%nat.
Proof.
  cbv zeta. split; [reflexivity|].
  change (lit ",") with [44%N]. rewrite count_join_separator.
  unfold csv_row. cbn [length pred map list_sum fold_right].
  rewrite count_number_toString, count_severity_name, count_status_name
    by lia.
  lia.
Qed.

Lemma row_line_feeds (report : BugReport) :
  count_occ N.eq_dec (join (lit ",") (csv_row toLocaleDateString report))
    10%N
  = (count_occ N.eq_dec (id report) 10%N
     + count_occ N.eq_dec (title report) 10%N
     + count_occ N.eq_dec (file report) 10%N
     + count_occ N.eq_dec (projectName report) 10%N
     + count_occ N.eq_dec (toLocaleDateString (createdAt report)) 10%N)%nat.
Proof.
  change (lit ",") with [44%N]. rewrite count_join_other by lia.
  unfold csv_row. cbn [length pred map list_sum fold_right].
  rewrite count_number_toString, count_severity_name, count_status_name
    by lia.
  lia.
Qed.

(** X22: the exported text has one line feed per report, after the header
    line, and those inside the id, title, file, project name and date of
    the reports on top: with none in these cells, it has one line per
    report after the header. *)
Theorem csvContent_line_feeds (filteredReports : list BugReport) :
  let line_feeds := fun cell => count_occ N.eq_dec cell 10%N in
  line_feeds (csvContent toLocaleDateString filteredReports)
  = (length filteredReports
     + list_sum
         (map (fun report =>
                 line_feeds (id report) + line_feeds (title report)
                 + line_feeds (file report)
                 + line_feeds (projectName report)
                 + line_feeds (toLocaleDateString (createdAt report)))
            filteredReports))%nat.
Proof.
  cbv zeta. unfold csvContent. rewrite count_join_separator.
  cbn [map length pred]. rewrite !length_map.
  change (list_sum (?a :: ?l)) with (a + list_sum l)%nat.
  change (count_occ N.eq_dec (join (lit ",") csv_header) 10%N) with 0%nat.
  rewrite !map_map. cbn [Nat.add]. f_equal.
  f_equal. apply map_ext. intros r. rewrite row_line_feeds. lia.
Qed.

End Locale.

Lemma filterReports_unknown_severity_witness :
  filterReports (fun s => s) MoreSamples.reports (lit "login")
    (lit "critical") (lit "all") = [].
Proof.
  apply (filterReports_unknown_severity (fun s => s) MoreSamples.reports
           (lit "login") (lit "critical") (lit "all"));
    intros H; discriminate H.
Defined.

End BugReportsFacts.

(** ** The welcome screen and the loading screen *)

Module WelcomeFacts.

Import Welcome.

Lemma welcome_seen_truthy : truthy (lit "true") = true.
Proof. reflexivity. Qed.

(** X23: completing the welcome screen or skipping it hides it and is
    remembered. After either handler [showWelcome] is off, a later mount
    that reads the storage starts with the welcome screen off, and no other
    key of the storage has changed; for [handleWelcomeComplete] also when
    the notification call throws. *)
Theorem welcome_not_shown_again (storage : Storage) (showWelcome : bool)
    (returns : Notification.t -> bool) (t : list Effect) :
  t = Eff.trace (handleWelcomeComplete returns)
  \/ t = Eff.trace handleSkipWelcome ->
  showWelcome_after showWelcome t = false
  /\ showWelcome_initial (storage_after storage t) = false
  /\ (forall key, key <> welcome_seen ->
        getItem (storage_after storage t) key = getItem storage key).
Proof.
  intros [-> | ->].
  - unfold handleWelcomeComplete.
    match goal with |- context [returns ?n] => destruct (returns n) end;
      (cbv beta iota zeta delta [Eff.bind Eff.emit Eff.ret Eff.throw
         Eff.trace Eff.outcome fst snd app];
       cbn [showWelcome_after storage_after];
       split; [reflexivity|]; split;
       [ unfold showWelcome_initial, getItem, setItem;
         now rewrite JSFacts.eqb_refl
       | intros key Hk; unfold getItem, setItem;
         apply JSFacts.eqb_neq in Hk; now rewrite Hk ]).
  - unfold handleSkipWelcome.
    cbv beta iota zeta delta [Eff.bind Eff.emit Eff.ret Eff.throw
         Eff.trace Eff.outcome fst snd app].
    cbn [showWelcome_after storage_after].
    split; [reflexivity|]; split.
    + unfold showWelcome_initial, getItem, setItem.
      now rewrite JSFacts.eqb_refl.
    + intros key Hk; unfold getItem, setItem.
      apply JSFacts.eqb_neq in Hk; now rewrite Hk.
Qed.

Lemma welcome_not_shown_again_witness :
  showWelcome_initial MoreSamples.empty_storage = true
  /\ showWelcome_initial
       (storage_after MoreSamples.empty_storage
          (Eff.trace (handleWelcomeComplete (fun _ => false)))) = false.
Proof.
  split; [reflexivity|].
  apply (welcome_not_shown_again MoreSamples.empty_storage true
           (fun _ => false)
           (Eff.trace (handleWelcomeComplete (fun _ => false)))).
  left. reflexivity.
Defined.

End WelcomeFacts.

Module LoadingScreenFacts.

Import LoadingScreen.

Lemma index_after_mod (n : nat) : index_after n = Z.of_nat n mod 4.
Proof.
  induction n as [|n IH]; [reflexivity|].
  cbn [index_after]. rewrite IH. unfold tick.
  change (Z.of_nat (length messages)) with 4.
  rewrite Nat2Z.inj_succ, <- Z.add_1_r.
  rewrite Zplus_mod_idemp_l. reflexivity.
Qed.

(** X24: the loading text goes round the four messages: after [n] firings
    of the interval it is message [n mod 4], it is never undefined, and it
    is the same again four firings later. *)
Theorem loadingText_cycles (n : nat) :
  loadingText_after n = nth_error messages (n mod 4)%nat
  /\ loadingText_after n <> None
  /\ loadingText_after (n + 4) = loadingText_after n.
Proof.
  assert (E : forall n, loadingText_after n
                        = nth_error messages (n mod 4)%nat).
  { intros m. destruct m as [|m]; [reflexivity|].
    unfold loadingText_after, message_at. rewrite index_after_mod.
    pose proof (Z.mod_pos_bound (Z.of_nat (S m)) 4 ltac:(lia)) as B.
    destruct (Z.ltb_spec (Z.of_nat (S m) mod 4) 0) as [L|_]; [lia|].
    f_equal. change 4 with (Z.of_nat 4). rewrite <- Nat2Z.inj_mod.
    apply Nat2Z.id. }
  split; [apply E|]. split.
  - rewrite E. apply nth_error_Some.
    change (length messages) with 4%nat.
    apply Nat.mod_upper_bound. discriminate.
  - rewrite !E. f_equal.
    replace (n + 4)%nat with (n + 1 * 4)%nat by lia.
    apply Nat.Div0.mod_add.
Qed.

End LoadingScreenFacts.
